(** * ZenML: the Model Control Plane facade and the YAML/JSON file helpers

    A shallow embedding of
    - [src/zenml/model/model_version.py] (class [ModelVersion]) and
    - [src/zenml/utils/yaml_utils.py]
    together with the properties their documentation states.

    Python methods that mutate [self], talk to the metadata store and raise
    exceptions are written in a state-and-exception monad; the store, the
    file system and the YAML/JSON codecs are interfaces the embedding is
    parametric in, exactly as the Python code is. *)

From Stdlib Require Import ZArith Ascii String.
From stdpp Require Import base option list strings pretty gmap.

Open Scope string_scope.

(** ** Python exceptions and results *)

(** Which of the two reserved-name checks of
    [_get_or_create_model_version] fired. *)
Inductive ReservedReason := MatchesStage | NumericName.

Inductive Exception :=
| KeyError
| EntityExistsError
| ReservedNameError (why : ReservedReason) (version_str : string)
| RuntimeError
| ValueError
| AttributeError
| TypeError
| FileNotFoundError (msg : string)
| YAMLError
| JSONDecodeError
| OtherError (cls : string).

Inductive Result (A : Type) :=
| Ok (a : A)
| Raise (e : Exception).
Arguments Ok {A} a.
Arguments Raise {A} e.

Definition is_ok {A} (r : Result A) : bool :=
  match r with Ok _ => true | Raise _ => false end.

(** ** A state-and-exception monad

    [M S A] is a Python computation over a mutable state [S]: it always
    returns the state it leaves behind, also when it raises. *)

Definition M (S A : Type) : Type := S -> S * Result A.

Definition ret {S A} (a : A) : M S A := fun s => (s, Ok a).
Definition raise {S A} (e : Exception) : M S A := fun s => (s, Raise e).

Definition bind {S A B} (m : M S A) (k : A -> M S B) : M S B :=
  fun s =>
    match m s with
    | (s', Ok a) => k a s'
    | (s', Raise e) => (s', Raise e)
    end.

Definition get {S} : M S S := fun s => (s, Ok s).
Definition modify {S} (f : S -> S) : M S unit := fun s => (f s, Ok tt).

(** [try: body / except: handler e]; a handler re-raises what it does not
    catch. *)
Definition try_except {S A} (body : M S A) (handler : Exception -> M S A)
  : M S A :=
  fun s =>
    match body s with
    | (s', Ok a) => (s', Ok a)
    | (s', Raise e) => handler e s'
    end.

(** [try: body / finally: fin], where the statement is used for the value
    the [finally] block assigns.  The block always runs; an exception of the
    block replaces a pending one, otherwise the pending one is re-raised. *)
Definition try_finally {S A B} (body : M S A) (fin : M S B) : M S B :=
  fun s =>
    match body s with
    | (s', Ok _) => fin s'
    | (s', Raise e) =>
        match fin s' with
        | (s'', Ok _) => (s'', Raise e)
        | (s'', Raise e') => (s'', Raise e')
        end
    end.

(** The outcome of a run is a [FileNotFoundError], whatever its message. *)
Definition raises_file_not_found {S A} (r : S * Result A) : Prop :=
  exists msg, snd r = Raise (FileNotFoundError msg).

Declare Scope py_scope.
Delimit Scope py_scope with py.
Notation "x <- m ;; k" := (bind m (fun x => k))
  (at level 100, m at next level, right associativity) : py_scope.
Notation "m ;;; k" := (bind m (fun _ => k))
  (at level 100, right associativity) : py_scope.
Open Scope py_scope.

(** ** Python strings

    A string is the sequence of its bytes in UTF-8.  Equality, emptiness,
    concatenation and suffixes are then those of Python.  [str.lower()]
    and [str.isnumeric()] look at characters: on a string of ASCII
    characters they are computed here; on any other string they are what
    Unicode's character database makes them, which is a parameter. *)

Class UnicodeData := {
  lower_beyond_ascii : string -> string;
  isnumeric_beyond_ascii : string -> bool
}.

Fixpoint is_ascii (s : string) : bool :=
  match s with
  | EmptyString => true
  | String c s' => (nat_of_ascii c <? 128)%nat && is_ascii s'
  end.

Definition is_upper (c : ascii) : bool :=
  (65 <=? nat_of_ascii c)%nat && (nat_of_ascii c <=? 90)%nat.

Definition is_digit (c : ascii) : bool :=
  (48 <=? nat_of_ascii c)%nat && (nat_of_ascii c <=? 57)%nat.

Definition lower_char (c : ascii) : ascii :=
  if is_upper c then ascii_of_nat (nat_of_ascii c + 32) else c.

Fixpoint lower_ascii (s : string) : string :=
  match s with
  | EmptyString => EmptyString
  | String c s' => String (lower_char c) (lower_ascii s')
  end.

(** [str.lower()] *)
Definition lower `{!UnicodeData} (s : string) : string :=
  if is_ascii s then lower_ascii s else lower_beyond_ascii s.

Fixpoint all_digits (s : string) : bool :=
  match s with
  | EmptyString => true
  | String c s' => is_digit c && all_digits s'
  end.

(** Of the ASCII characters the digits are the numeric ones. *)
Definition isnumeric_ascii (s : string) : bool :=
  match s with
  | EmptyString => false
  | _ => all_digits s
  end.

(** [str.isnumeric()]: at least one character, and all of them numeric. *)
Definition isnumeric `{!UnicodeData} (s : string) : bool :=
  if is_ascii s then isnumeric_ascii s else isnumeric_beyond_ascii s.

(** A database that knows no character beyond ASCII: it stands in where
    the strings at hand are ASCII. *)
Definition ascii_only : UnicodeData :=
  {| lower_beyond_ascii := fun s => s;
     isnumeric_beyond_ascii := fun _ => false |}.

(** * [zenml/model/model_version.py] *)

Module model_version.

Definition UUID := N.

(** ** Data *)

(** [version: Optional[Union[ModelStages, int, str]]].  [ModelStages] is a
    string enumeration: a member carries its string value. *)
Inductive Version :=
| VStage (value : string)
| VInt (n : Z)
| VStr (s : string).

Global Instance Version_eq_dec : EqDecision Version.
Proof. solve_decision. Defined.

(** [str(self.version)] *)
Definition str (v : option Version) : string :=
  match v with
  | None => "None"
  | Some (VStage value) => value
  | Some (VInt n) => pretty n
  | Some (VStr s) => s
  end.

(** Truth value of [self.version] in [if self.version] / [not self.version]:
    [None], [0] and the empty string are false. *)
Definition truthy (v : option Version) : bool :=
  match v with
  | None => false
  | Some (VStage value) => negb (String.eqb value "")
  | Some (VInt n) => negb (n =? 0)%Z
  | Some (VStr s) => negb (String.eqb s "")
  end.

(** [a == b] on versions: a stage member is a string and equals the plain
    string of the same value; an integer never equals a string. *)
Definition version_eqb (a b : option Version) : bool :=
  match a, b with
  | None, None => true
  | Some (VInt n), Some (VInt m) => (n =? m)%Z
  | Some (VInt _), _ | _, Some (VInt _) => false
  | Some (VStage x | VStr x), Some (VStage y | VStr y) => String.eqb x y
  | _, _ => false
  end.

Record ModelVersion := {
  name : string;
  license : option string;
  description : option string;
  audience : option string;
  use_cases : option string;
  limitations : option string;
  trade_offs : option string;
  ethics : option string;
  tags : option (list string);
  version : option Version;
  save_models_to_registry : bool;
  suppress_class_validation_warnings : bool;
  was_created_in_this_run : bool;
  _model_id : option UUID;
  _id : option UUID;
  _number : option Z
}.

Definition set_version (v : option Version) (self : ModelVersion) :=
  {| name := name self; license := license self;
     description := description self; audience := audience self;
     use_cases := use_cases self; limitations := limitations self;
     trade_offs := trade_offs self; ethics := ethics self;
     tags := tags self; version := v;
     save_models_to_registry := save_models_to_registry self;
     suppress_class_validation_warnings :=
       suppress_class_validation_warnings self;
     was_created_in_this_run := was_created_in_this_run self;
     _model_id := _model_id self; _id := _id self;
     _number := _number self |}.

Definition set_was_created_in_this_run (b : bool) (self : ModelVersion) :=
  {| name := name self; license := license self;
     description := description self; audience := audience self;
     use_cases := use_cases self; limitations := limitations self;
     trade_offs := trade_offs self; ethics := ethics self;
     tags := tags self; version := version self;
     save_models_to_registry := save_models_to_registry self;
     suppress_class_validation_warnings :=
       suppress_class_validation_warnings self;
     was_created_in_this_run := b;
     _model_id := _model_id self; _id := _id self;
     _number := _number self |}.

Definition set_model_id (x : UUID) (self : ModelVersion) :=
  {| name := name self; license := license self;
     description := description self; audience := audience self;
     use_cases := use_cases self; limitations := limitations self;
     trade_offs := trade_offs self; ethics := ethics self;
     tags := tags self; version := version self;
     save_models_to_registry := save_models_to_registry self;
     suppress_class_validation_warnings :=
       suppress_class_validation_warnings self;
     was_created_in_this_run := was_created_in_this_run self;
     _model_id := Some x; _id := _id self;
     _number := _number self |}.

Definition set_id (x : UUID) (self : ModelVersion) :=
  {| name := name self; license := license self;
     description := description self; audience := audience self;
     use_cases := use_cases self; limitations := limitations self;
     trade_offs := trade_offs self; ethics := ethics self;
     tags := tags self; version := version self;
     save_models_to_registry := save_models_to_registry self;
     suppress_class_validation_warnings :=
       suppress_class_validation_warnings self;
     was_created_in_this_run := was_created_in_this_run self;
     _model_id := _model_id self; _id := Some x;
     _number := _number self |}.

Definition set_number (n : Z) (self : ModelVersion) :=
  {| name := name self; license := license self;
     description := description self; audience := audience self;
     use_cases := use_cases self; limitations := limitations self;
     trade_offs := trade_offs self; ethics := ethics self;
     tags := tags self; version := version self;
     save_models_to_registry := save_models_to_registry self;
     suppress_class_validation_warnings :=
       suppress_class_validation_warnings self;
     was_created_in_this_run := was_created_in_this_run self;
     _model_id := _model_id self; _id := _id self;
     _number := Some n |}.

(** The fields of the store's answers that [ModelVersion] reads. *)
Record ModelResponseModel := {
  mr_id : UUID;
  mr_name : string
}.

Record ModelVersionResponseModel := {
  mvr_id : UUID;
  mvr_name : string;
  mvr_number : Z;
  mvr_model : ModelResponseModel;
  mvr_stage : option string
}.

Record ModelRequestModel := {
  rq_name : string;
  rq_license : option string;
  rq_description : option string;
  rq_audience : option string;
  rq_use_cases : option string;
  rq_limitations : option string;
  rq_trade_offs : option string;
  rq_ethics : option string;
  rq_tags : option (list string);
  rq_user : UUID;
  rq_workspace : UUID
}.

Record ModelVersionRequestModel := {
  vrq_user : UUID;
  vrq_workspace : UUID;
  vrq_name : option Version;
  vrq_description : option string;
  vrq_model : UUID
}.

(** ** The metadata store

    [Client().zen_store] is an interface; its implementations are remote
    services.  Every call may leave the store in another state (a remote
    store is shared with other clients), and may raise. *)
Class ZenStore (Store : Type) := {
  get_model : string -> Store -> Store * Result ModelResponseModel;
  create_model :
    ModelRequestModel -> Store -> Store * Result ModelResponseModel;
  get_model_version :
    string -> option Version -> Store ->
    Store * Result ModelVersionResponseModel;
  create_model_version :
    ModelVersionRequestModel -> Store ->
    Store * Result ModelVersionResponseModel
}.

(** The requests a [ModelVersion] sent to the store, oldest first. *)
Inductive StoreCall :=
| GetModel (model_name_or_id : string)
| CreateModel (model : ModelRequestModel)
| GetModelVersion (model_name_or_id : string)
    (model_version_name_or_number_or_id : option Version)
| CreateModelVersion (model_version : ModelVersionRequestModel).

Definition is_create (c : StoreCall) : bool :=
  match c with
  | CreateModel _ | CreateModelVersion _ => true
  | _ => false
  end.

Definition is_create_model_version (c : StoreCall) : bool :=
  match c with
  | CreateModelVersion _ => true
  | _ => false
  end.

(** What [get_step_context()] exposes: the model version configured on the
    pipeline run and, per step in [pipeline_run.steps] order, the one
    configured on the step. *)
Record StepContext := {
  pipeline_model_version : option ModelVersion;
  steps : list (string * option ModelVersion)
}.

(** The ambient [Client()]: active user and workspace, and the step context
    ([None] when [get_step_context()] raises [RuntimeError], that is outside
    of a step). *)
Record Client := {
  active_user : UUID;
  active_workspace : UUID;
  step_context : option StepContext
}.

(** ** Methods *)

Section methods.

Context {Store : Type} `{!ZenStore Store} `{!UnicodeData}.

(** The ambient client, and [ModelStages.values()], the list of the stage
    names (declared in [zenml/enums.py]). *)
Variable client : Client.
Variable ModelStages_values : list string.

(** What a method runs on: the store, the log of the requests sent to it,
    and the object the method is called on. *)
Record Heap := {
  zen_store : Store;
  calls : list StoreCall;
  this : ModelVersion
}.

Definition on_this (f : ModelVersion -> ModelVersion) : M Heap unit :=
  modify (fun h =>
    {| zen_store := zen_store h; calls := calls h; this := f (this h) |}).

Definition self_ : M Heap ModelVersion :=
  fun h => (h, Ok (this h)).

(** A request to the store: logged, answered by the store. *)
Definition request {A} (c : StoreCall) (op : Store -> Store * Result A)
  : M Heap A :=
  fun h =>
    let (st, r) := op (zen_store h) in
    ({| zen_store := st; calls := (calls h ++ [c])%list; this := this h |},
     r).

Definition model_request_of (self : ModelVersion) : ModelRequestModel :=
  {| rq_name := name self;
     rq_license := license self;
     rq_description := description self;
     rq_audience := audience self;
     rq_use_cases := use_cases self;
     rq_limitations := limitations self;
     rq_trade_offs := trade_offs self;
     rq_ethics := ethics self;
     rq_tags := tags self;
     rq_user := active_user client;
     rq_workspace := active_workspace client |}.

(** Logging is left out, and building the request models
    ([ModelRequestModel(...)], [parse_obj]) is taken to succeed. *)
Definition _get_or_create_model : M Heap ModelResponseModel :=
  self <- self_ ;;
  model <-
    try_except
      (request (GetModel (name self)) (get_model (name self)))
      (fun e =>
         match e with
         | KeyError =>
             let model_request := model_request_of self in
             try_finally
               (try_except
                  (_ <- request (CreateModel model_request)
                                (create_model model_request) ;;
                   ret tt)
                  (fun e' =>
                     match e' with
                     | EntityExistsError => ret tt
                     | _ => raise e'
                     end))
               (request (GetModel (name self)) (get_model (name self)))
         | _ => raise e
         end) ;;
  on_this (set_model_id (mr_id model)) ;;;
  ret model.

Definition _get_model_version : M Heap ModelVersionResponseModel :=
  self <- self_ ;;
  request (GetModelVersion (name self) (version self))
          (get_model_version (name self) (version self)).

(** [mv and mv.was_created_in_this_run and mv.name == self.name] *)
Definition created_here_for (self : ModelVersion)
    (mv : option ModelVersion) : bool :=
  match mv with
  | None => false
  | Some mv =>
      was_created_in_this_run mv && String.eqb (name mv) (name self)
  end.

(** The [for step in context.pipeline_run.steps.values()] loop: the
    configuration of the first step that qualifies. *)
Fixpoint first_step_version (self : ModelVersion)
    (l : list (string * option ModelVersion)) : option ModelVersion :=
  match l with
  | [] => None
  | (_, step_mv) :: l' =>
      if created_here_for self step_mv then step_mv
      else first_step_version self l'
  end.

(** The [if not self.version:] block. *)
Definition adopt_version_of_this_run : M Heap unit :=
  self <- self_ ;;
  if negb (truthy (version self)) then
    match step_context client with
    | None => ret tt
    | Some context =>
        let pipeline_mv := pipeline_model_version context in
        if created_here_for self pipeline_mv then
          match pipeline_mv with
          | Some mv => on_this (set_version (version mv))
          | None => ret tt
          end
        else
          match first_step_version self (steps context) with
          | Some step_mv => on_this (set_version (version step_mv))
          | None => ret tt
          end
    end
  else ret tt.

(** The body of the [try:] statement: adopt a version created in this
    run, then fetch the configured version, or [raise KeyError] when there
    is none to fetch. *)
Definition try_get_model_version : M Heap ModelVersionResponseModel :=
  adopt_version_of_this_run ;;;
  self <- self_ ;;
  if truthy (version self) then _get_model_version
  else raise KeyError.

Definition in_stages (s : string) : bool :=
  bool_decide (s ∈ ModelStages_values).

Definition model_version_request_of (self : ModelVersion)
    (model : ModelResponseModel) : ModelVersionRequestModel :=
  {| vrq_user := active_user client;
     vrq_workspace := active_workspace client;
     vrq_name := version self;
     vrq_description := description self;
     vrq_model := mr_id model |}.

Definition _get_or_create_model_version : M Heap ModelVersionResponseModel :=
  model <- _get_or_create_model ;;
  self <- self_ ;;
  let mv_request := model_version_request_of self model in
  model_version <-
    try_except
      try_get_model_version
      (fun e =>
         match e with
         | KeyError =>
             self <- self_ ;;
             if truthy (version self)
                && in_stages (lower (str (version self)))
             then raise (ReservedNameError MatchesStage (str (version self)))
             else if isnumeric (str (version self))
             then raise (ReservedNameError NumericName (str (version self)))
             else
               model_version <-
                 request (CreateModelVersion mv_request)
                         (create_model_version mv_request) ;;
               on_this (set_version (Some (VStr (mvr_name model_version)))) ;;;
               on_this (set_was_created_in_this_run true) ;;;
               ret model_version
         | _ => raise e
         end) ;;
  on_this (set_id (mvr_id model_version)) ;;;
  on_this (set_model_id (mr_id (mvr_model model_version))) ;;;
  on_this (set_number (mvr_number model_version)) ;;;
  ret model_version.

(** [except ReservedNameError: logger.info(...)] *)
Definition swallow_reserved {A} (m : M Heap A) : M Heap unit :=
  try_except (_ <- m ;; ret tt)
    (fun e =>
       match e with
       | ReservedNameError _ _ => ret tt
       | _ => raise e
       end).

Definition id : M Heap (option UUID) :=
  self <- self_ ;;
  (match _id self with
   | None => swallow_reserved _get_or_create_model_version
   | Some _ => ret tt
   end) ;;;
  self <- self_ ;;
  ret (_id self).

Definition model_id : M Heap (option UUID) :=
  self <- self_ ;;
  (match _model_id self with
   | None => _ <- _get_or_create_model ;; ret tt
   | Some _ => ret tt
   end) ;;;
  self <- self_ ;;
  ret (_model_id self).

Definition number : M Heap (option Z) :=
  self <- self_ ;;
  (match _number self with
   | None => swallow_reserved _get_or_create_model_version
   | Some _ => ret tt
   end) ;;;
  self <- self_ ;;
  ret (_number self).

(** [ModelStages(stage)]: the member of that value, [ValueError] if there is
    none. *)
Definition ModelStages (value : string) : M Heap string :=
  if in_stages value then ret value else raise ValueError.

Definition stage : M Heap (option string) :=
  try_except
    (mv <- _get_or_create_model_version ;;
     match mvr_stage mv with
     | Some stage =>
         if negb (String.eqb stage "")
         then (m <- ModelStages stage ;; ret (Some m))
         else ret None
     | None => ret None
     end)
    (fun e =>
       match e with
       | ReservedNameError _ _ => ret None
       | _ => raise e
       end).

(** [__hash__]: the built-in [hash] of ["::".join((str(name), str(version)))];
    [hash] on strings is a parameter. *)
Definition hash_key (self : ModelVersion) : string :=
  name self ++ "::" ++ str (version self).

Definition __hash__ (hash : string -> Z) (self : ModelVersion) : Z :=
  hash (hash_key self).

(** [__eq__] needs both objects: the state is the heap of [self] paired
    with [other]. *)
Definition for_self {A} (m : M Heap A) : M (Heap * ModelVersion) A :=
  fun '(h, other) =>
    let (h', r) := m h in ((h', other), r).

Definition for_other {A} (m : M Heap A) : M (Heap * ModelVersion) A :=
  fun '(h, other) =>
    let (h', r) :=
      m {| zen_store := zen_store h; calls := calls h; this := other |} in
    (({| zen_store := zen_store h'; calls := calls h'; this := this h |},
      this h'), r).

Definition __eq__ : M (Heap * ModelVersion) bool :=
  st <- get ;;
  let self := this (fst st) in
  let other := snd st in
  if negb (String.eqb (name self) (name other)) then ret false
  else if String.eqb (name self) (name other)
          && version_eqb (version self) (version other)
  then ret true
  else
    self_mv <- for_self _get_or_create_model_version ;;
    other_mv <- for_other _get_or_create_model_version ;;
    ret (N.eqb (mvr_id self_mv) (mvr_id other_mv)).

(** ** Vocabulary of the properties *)

(** Some model version of the model [self.name] was already created in
    this run: the pipeline's configuration, or that of one of the steps,
    says so.  Outside of a step nothing was. *)
Definition created_in_this_run (self : ModelVersion) : bool :=
  match step_context client with
  | None => false
  | Some context =>
      created_here_for self (pipeline_model_version context)
      || existsb (fun step => created_here_for self (snd step))
                 (steps context)
  end.

(** [self] once the three private attributes are set from the store's
    answer [mv], in the order lines 480-482 set them. *)
Definition resolved (mv : ModelVersionResponseModel) (self : ModelVersion)
  : ModelVersion :=
  set_number (mvr_number mv)
    (set_model_id (mr_id (mvr_model mv)) (set_id (mvr_id mv) self)).

(** The three cached properties, what reading one yields, and what the
    private attribute behind it holds. *)
Inductive Property := Id | ModelId | Number.

Inductive Cached :=
| AnId (x : option UUID)
| ANumber (x : option Z).

Definition read (p : Property) : M Heap Cached :=
  match p with
  | Id => x <- id ;; ret (AnId x)
  | ModelId => x <- model_id ;; ret (AnId x)
  | Number => x <- number ;; ret (ANumber x)
  end.

Definition attribute (p : Property) (self : ModelVersion) : Cached :=
  match p with
  | Id => AnId (_id self)
  | ModelId => AnId (_model_id self)
  | Number => ANumber (_number self)
  end.

Definition is_set (c : Cached) : bool :=
  match c with
  | AnId x => bool_decide (is_Some x)
  | ANumber x => bool_decide (is_Some x)
  end.

(** Reading properties one after the other. *)
Fixpoint read_all (ps : list Property) : M Heap (list Cached) :=
  match ps with
  | [] => ret []
  | p :: ps' => x <- read p ;; xs <- read_all ps' ;; ret (x :: xs)
  end.

End methods.

Arguments Heap Store : clear implicits.

(** ** An in-memory store

    A store kept in memory, on which the methods run on concrete inputs.
    [arriving] holds the models other clients are registering at the same
    time: they land when the store next serves a [create_model]. *)
Record MemStore := {
  models : list ModelResponseModel;
  model_versions : list ModelVersionResponseModel;
  arriving : list ModelResponseModel
}.

Definition mem_find_model (n : string) (l : list ModelResponseModel)
  : option ModelResponseModel :=
  List.find (fun m => String.eqb (mr_name m) n) l.

Definition mem_get_model (n : string) (st : MemStore)
  : MemStore * Result ModelResponseModel :=
  match mem_find_model n (models st) with
  | Some m => (st, Ok m)
  | None => (st, Raise KeyError)
  end.

Definition mem_create_model (rq : ModelRequestModel) (st : MemStore)
  : MemStore * Result ModelResponseModel :=
  let landed := (models st ++ arriving st)%list in
  match mem_find_model (rq_name rq) landed with
  | Some _ =>
      ({| models := landed; model_versions := model_versions st;
          arriving := [] |}, Raise EntityExistsError)
  | None =>
      let m := {| mr_id := (N.of_nat (length landed) + 1)%N;
                  mr_name := rq_name rq |} in
      ({| models := (landed ++ [m])%list; model_versions := model_versions st;
          arriving := [] |}, Ok m)
  end.

Definition mem_matches (n : string) (v : option Version)
    (mv : ModelVersionResponseModel) : bool :=
  String.eqb (mr_name (mvr_model mv)) n &&
  match v with
  | None => false
  | Some (VStage s) => bool_decide (mvr_stage mv = Some s)
  | Some (VInt k) => (mvr_number mv =? k)%Z
  | Some (VStr s) =>
      String.eqb (mvr_name mv) s || bool_decide (mvr_stage mv = Some s)
  end.

Definition mem_get_model_version (n : string) (v : option Version)
    (st : MemStore) : MemStore * Result ModelVersionResponseModel :=
  match List.find (mem_matches n v) (model_versions st) with
  | Some mv => (st, Ok mv)
  | None => (st, Raise KeyError)
  end.

Definition mem_create_model_version (rq : ModelVersionRequestModel)
    (st : MemStore) : MemStore * Result ModelVersionResponseModel :=
  match List.find (fun m => N.eqb (mr_id m) (vrq_model rq)) (models st) with
  | None => (st, Raise KeyError)
  | Some m =>
      let siblings :=
        List.filter (fun mv => N.eqb (mr_id (mvr_model mv)) (mr_id m))
                    (model_versions st) in
      let k := Z.of_nat (length siblings) + 1 in
      let mv := {| mvr_id := (1000 + N.of_nat (length (model_versions st)))%N;
                   mvr_name := match vrq_name rq with
                               | Some v => str (Some v)
                               | None => pretty k
                               end;
                   mvr_number := k;
                   mvr_model := m;
                   mvr_stage := None |} in
      ({| models := models st;
          model_versions := (model_versions st ++ [mv])%list;
          arriving := arriving st |}, Ok mv)
  end%Z.

Global Instance MemStore_store : ZenStore MemStore := {|
  get_model := mem_get_model;
  create_model := mem_create_model;
  get_model_version := mem_get_model_version;
  create_model_version := mem_create_model_version
|}.

(** A configuration as a user writes it: a name and a version, nothing
    resolved yet. *)
Definition configured (n : string) (v : option Version) : ModelVersion :=
  {| name := n; license := None; description := None; audience := None;
     use_cases := None; limitations := None; trade_offs := None;
     ethics := None; tags := None; version := v;
     save_models_to_registry := true;
     suppress_class_validation_warnings := true;
     was_created_in_this_run := false;
     _model_id := None; _id := None; _number := None |}.

Definition fresh_heap (st : MemStore) (self : ModelVersion) : Heap MemStore :=
  {| zen_store := st; calls := []; this := self |}.

(** A client outside of any step, and the stage names of [zenml/enums.py]. *)
Definition plain_client : Client :=
  {| active_user := 7%N; active_workspace := 9%N; step_context := None |}.

Definition stage_names : list string :=
  ["none"; "staging"; "production"; "archived"; "latest"].

Definition empty_store : MemStore :=
  {| models := []; model_versions := []; arriving := [] |}.

Definition churn : ModelResponseModel := {| mr_id := 1%N; mr_name := "churn" |}.

Definition churn_v1 : ModelVersionResponseModel :=
  {| mvr_id := 1000%N; mvr_name := "baseline"; mvr_number := 1%Z;
     mvr_model := churn; mvr_stage := Some "staging" |}.

Definition churn_store : MemStore :=
  {| models := [churn]; model_versions := [churn_v1]; arriving := [] |}.

Definition churn_store_without_versions : MemStore :=
  {| models := [churn]; model_versions := []; arriving := [] |}.

(** A store in which another client registers the model [churn] right
    before this client's [create_model] is served. *)
Definition racing_store : MemStore :=
  {| models := []; model_versions := []; arriving := [churn] |}.

(** ** The remaining methods *)

(** [a or b] on optional strings: [a] when it is a non-empty string,
    [b] otherwise. *)
Definition or_else (a b : option string) : option string :=
  match a with
  | Some s => if String.eqb s "" then b else a
  | None => b
  end.

(** [self._merge(model_version)]; the result is [self] afterwards.  The
    tags go through a set: the list built from it has no duplicates, in the
    order the set gives. *)
Definition _merge (self model_version : ModelVersion) : ModelVersion :=
  {| name := name self;
     license := or_else (license self) (license model_version);
     description := or_else (description self) (description model_version);
     audience := or_else (audience self) (audience model_version);
     use_cases := or_else (use_cases self) (use_cases model_version);
     limitations := or_else (limitations self) (limitations model_version);
     trade_offs := or_else (trade_offs self) (trade_offs model_version);
     ethics := or_else (ethics self) (ethics model_version);
     tags :=
       match tags model_version with
       | Some other_tags =>
           Some (elements
                   ((list_to_set (default [] (tags self)) : gset string)
                    ∪ list_to_set other_tags))
       | None => tags self
       end;
     version := version self;
     save_models_to_registry := save_models_to_registry self;
     suppress_class_validation_warnings :=
       suppress_class_validation_warnings self;
     was_created_in_this_run := was_created_in_this_run self;
     _model_id := _model_id self; _id := _id self;
     _number := _number self |}.

(** What [_root_validator] may find under a key of [values]: it runs
    before the fields are parsed. *)
Inductive Any :=
| ANone
| ABool (b : bool)
| AInt (n : Z)
| AStr (s : string)
| AStage (value : string).

Definition str_any (x : Any) : string :=
  match x with
  | ANone => "None"
  | ABool true => "True"
  | ABool false => "False"
  | AInt n => pretty n
  | AStr s => s
  | AStage value => value
  end.

Definition truthy_any (x : Any) : bool :=
  match x with
  | ANone => false
  | ABool b => b
  | AInt n => negb (n =? 0)%Z
  | AStr s => negb (String.eqb s "")
  | AStage value => negb (String.eqb value "")
  end.

(** [x in [stage.value for stage in ModelStages]]: only a string equals a
    stage value. *)
Definition is_stage_value (stage_values : list string) (x : Any) : bool :=
  match x with
  | AStr s | AStage s => bool_decide (s ∈ stage_values)
  | _ => false
  end.

Definition stage_notice (version : Any) : string :=
  "`version` `" ++ str_any version
  ++ "` matches one of the possible `ModelStages` and will be fetched using stage.".

Definition numeric_notice (version : Any) : string :=
  "`version` `" ++ str_any version
  ++ "` is numeric and will be fetched using version number.".

(** [_root_validator(cls, values)]: the lines handed to [logger.info], and
    the values returned. *)
Definition _root_validator `{!UnicodeData} (stage_values : list string)
    (values : gmap string Any) : list string * gmap string Any :=
  let suppress_class_validation_warnings :=
    default (ABool false) (values !! "suppress_class_validation_warnings") in
  let version := default ANone (values !! "version") in
  let log1 :=
    if is_stage_value stage_values version
       && negb (truthy_any suppress_class_validation_warnings)
    then [stage_notice version] else [] in
  let log2 :=
    if isnumeric (str_any version)
       && negb (truthy_any suppress_class_validation_warnings)
    then [numeric_notice version] else [] in
  ((log1 ++ log2)%list,
   <["suppress_class_validation_warnings" := ABool true]> values).

(** The optional text fields [_merge] fills in. *)
Definition text_fields : list (ModelVersion -> option string) :=
  [license; description; audience; use_cases; limitations; trade_offs;
   ethics].

(** Where the [if not self.version:] block finds the configuration whose
    version it takes over: on the pipeline if that one qualifies, else on
    the first step that does. *)
Definition adopted_from (self : ModelVersion) (context : StepContext)
    (adopted : ModelVersion) : Prop :=
  (pipeline_model_version context = Some adopted /\
   created_here_for self (Some adopted) = true) \/
  (created_here_for self (pipeline_model_version context) = false /\
   exists before k after,
     steps context = (before ++ (k, Some adopted) :: after)%list /\
     existsb (fun step => created_here_for self (snd step)) before = false /\
     created_here_for self (Some adopted) = true).

(** The methods that resolve the model (version) and hand over to a method
    of the store's answer.  Those methods live with the response models;
    they are parameters here, and may themselves talk to the store. *)
Section delegating.

Context {Store : Type} `{!ZenStore Store} `{!UnicodeData}.
Variable client : Client.
Variable ModelStages_values : list string.

Context {Artifact PipelineRun Updated : Type}.

Variable response_versions :
  ModelResponseModel -> M (Heap Store) (list ModelVersionResponseModel).
Variable response_get_model_artifact :
  ModelVersionResponseModel -> string -> option string -> option string ->
  option string -> M (Heap Store) (option Artifact).
Variable response_get_data_artifact :
  ModelVersionResponseModel -> string -> option string -> option string ->
  option string -> M (Heap Store) (option Artifact).
Variable response_get_endpoint_artifact :
  ModelVersionResponseModel -> string -> option string -> option string ->
  option string -> M (Heap Store) (option Artifact).
Variable response_get_pipeline_run :
  ModelVersionResponseModel -> string -> M (Heap Store) PipelineRun.
Variable response_set_stage :
  ModelVersionResponseModel -> string -> bool -> M (Heap Store) Updated.

Definition all_model_versions
  : M (Heap Store) (list ModelVersionResponseModel) :=
  model <- _get_or_create_model client ;;
  response_versions model.

Definition get_model_artifact (name : string)
    (version pipeline_name step_name : option string)
  : M (Heap Store) (option Artifact) :=
  mv <- _get_or_create_model_version client ModelStages_values ;;
  response_get_model_artifact mv name version pipeline_name step_name.

Definition get_data_artifact (name : string)
    (version pipeline_name step_name : option string)
  : M (Heap Store) (option Artifact) :=
  mv <- _get_or_create_model_version client ModelStages_values ;;
  response_get_data_artifact mv name version pipeline_name step_name.

Definition get_endpoint_artifact (name : string)
    (version pipeline_name step_name : option string)
  : M (Heap Store) (option Artifact) :=
  mv <- _get_or_create_model_version client ModelStages_values ;;
  response_get_endpoint_artifact mv name version pipeline_name step_name.

Definition get_pipeline_run (name : string) : M (Heap Store) PipelineRun :=
  mv <- _get_or_create_model_version client ModelStages_values ;;
  response_get_pipeline_run mv name.

Definition set_stage (stage : string) (force : bool)
  : M (Heap Store) Updated :=
  mv <- _get_or_create_model_version client ModelStages_values ;;
  response_set_stage mv stage force.

Definition _validate_config_in_runtime : M (Heap Store) unit :=
  _ <- _get_or_create_model_version client ModelStages_values ;;
  ret tt.

End delegating.

(** ** More stores and clients to run on *)

(** A store in memory whose requests can be made to fail: a request of a
    kind listed in [failing] raises the exception listed with it, the
    others are served from memory. *)
Inductive RequestKind :=
| KGetModel | KCreateModel | KGetModelVersion | KCreateModelVersion.

Global Instance RequestKind_eq_dec : EqDecision RequestKind.
Proof. solve_decision. Defined.

Record Faulty := {
  behind : MemStore;
  failing : list (RequestKind * Exception)
}.

Definition failure_of (k : RequestKind) (st : Faulty) : option Exception :=
  snd <$> List.find (fun ke => bool_decide (fst ke = k)) (failing st).

Definition faulty {A} (k : RequestKind)
    (op : MemStore -> MemStore * Result A) (st : Faulty)
  : Faulty * Result A :=
  match failure_of k st with
  | Some e => (st, Raise e)
  | None =>
      let (mem, r) := op (behind st) in
      ({| behind := mem; failing := failing st |}, r)
  end.

Global Instance Faulty_store : ZenStore Faulty := {|
  get_model := fun n => faulty KGetModel (mem_get_model n);
  create_model := fun rq => faulty KCreateModel (mem_create_model rq);
  get_model_version :=
    fun n v => faulty KGetModelVersion (mem_get_model_version n v);
  create_model_version :=
    fun rq => faulty KCreateModelVersion (mem_create_model_version rq)
|}.

Definition unreachable : Faulty :=
  {| behind := churn_store;
     failing := [(KGetModel, OtherError "ConnectionError")] |}.

Definition read_only : Faulty :=
  {| behind := empty_store;
     failing := [(KCreateModel, OtherError "IllegalOperationError");
                 (KCreateModelVersion, OtherError "IllegalOperationError")] |}.

Definition versions_down : Faulty :=
  {| behind := churn_store;
     failing := [(KGetModelVersion, OtherError "ConnectionError")] |}.

Definition churn_read_only : Faulty :=
  {| behind := churn_store;
     failing := [(KCreateModel, OtherError "IllegalOperationError");
                 (KCreateModelVersion, OtherError "IllegalOperationError")] |}.

(** A store whose [get_model] raises a [ReservedNameError]. *)
Definition reserving : Faulty :=
  {| behind := churn_store;
     failing := [(KGetModel, ReservedNameError NumericName "1")] |}.

(** A store that loses what it is told: a model can be created, and is
    not found afterwards. *)
Definition amnesiac : Faulty :=
  {| behind := empty_store; failing := [(KGetModel, KeyError)] |}.

Definition new_heap {Store} (st : Store) (self : ModelVersion) : Heap Store :=
  {| zen_store := st; calls := []; this := self |}.

(** Two configurations of [churn] to merge: a sketch with an empty
    description, and the model card. *)
Definition sketch : ModelVersion :=
  {| name := "churn"; license := Some "MIT"; description := Some "";
     audience := None; use_cases := None; limitations := None;
     trade_offs := None; ethics := None;
     tags := Some ["tabular"; "draft"; "tabular"];
     version := Some (VStr "baseline");
     save_models_to_registry := true;
     suppress_class_validation_warnings := true;
     was_created_in_this_run := false;
     _model_id := None; _id := None; _number := None |}.

Definition card : ModelVersion :=
  {| name := "churn"; license := Some "Apache-2.0";
     description := Some "Churn model";
     audience := Some "analysts"; use_cases := None; limitations := None;
     trade_offs := None; ethics := None;
     tags := Some ["prod"; "tabular"];
     version := None;
     save_models_to_registry := true;
     suppress_class_validation_warnings := true;
     was_created_in_this_run := false;
     _model_id := None; _id := None; _number := None |}.

(** A client inside a step of a run whose pipeline created the version
    [baseline] of [churn], and one inside a step of a run in which only the
    second step created it. *)
Definition created_baseline : ModelVersion :=
  set_was_created_in_this_run true
    (configured "churn" (Some (VStr "baseline"))).

Definition pipeline_client : Client :=
  {| active_user := 7%N; active_workspace := 9%N;
     step_context :=
       Some {| pipeline_model_version := Some created_baseline;
               steps := [("train", None)] |} |}.

Definition step_client : Client :=
  {| active_user := 7%N; active_workspace := 9%N;
     step_context :=
       Some {| pipeline_model_version :=
                 Some (configured "churn" (Some (VStr "old")));
               steps := [("load", Some (configured "fraud" None));
                         ("train", Some created_baseline);
                         ("eval", Some (set_was_created_in_this_run true
                                   (configured "churn" (Some (VInt 9)))))] |} |}.

End model_version.

(** * [zenml/utils/yaml_utils.py] *)

Module yaml_utils.

(** ** The file system

    [zenml.io.fileio] and [zenml.utils.io_utils] over a file system state
    [FS], with [str(Path(p).parent)] of [pathlib].  Queries read the state;
    only [write_file_contents_as_string] changes it. *)
Class FileIO (FS : Type) := {
  is_remote : string -> bool;
  Path_parent : string -> string;
  fileio_exists : string -> FS -> bool;
  fileio_isdir : string -> FS -> bool;
  read_file_contents_as_string : string -> FS -> Result string;
  write_file_contents_as_string : string -> string -> FS -> FS * Result unit
}.

(** What the functions rely on: a write that returns leaves a file there
    with the text written, and a path that exists is not reported missing
    when it is read. *)
Class FileIOLaws (FS : Type) `{!FileIO FS} : Prop := {
  written_exists p text (fs fs' : FS) :
    write_file_contents_as_string p text fs = (fs', Ok tt) ->
    fileio_exists p fs' = true;
  written_read p text (fs fs' : FS) :
    write_file_contents_as_string p text fs = (fs', Ok tt) ->
    read_file_contents_as_string p fs' = Ok text;
  existing_not_missing p (fs : FS) msg :
    fileio_exists p fs = true ->
    read_file_contents_as_string p fs <> Raise (FileNotFoundError msg)
}.

(** ** Python values and the serializers

    Dictionaries are finite maps from keys to values; what a parser returns
    is [None], a dictionary, or some other value (a scalar or a sequence).
    A serializer returns the text or raises an exception of its own
    choosing: [yaml.dump] a [YAMLError] or whatever a representer raises,
    [json.dumps] a [TypeError], a [ValueError] on a circular reference, or
    what the encoder's [default] raises.  A parser that fails yields no
    value, and the caller sees the library's parse error. *)
Section values.

Context {Key : Type} `{Countable Key} {Val : Type}.

Inductive PyObj :=
| PyNone
| PyDict (d : gmap Key Val)
| PyOther (v : Val).

Class Serializers (Encoder : Type) := {
  (** truth value of a scalar or a sequence *)
  bool_of : Val -> bool;
  yaml_dump : gmap Key Val -> bool -> Result string;
  yaml_safe_load : string -> option PyObj;
  json_dumps : gmap Key Val -> option Encoder -> Result string;
  json_loads : string -> option PyObj
}.

(** [d.update(other)]: every entry of [other] is stored into [d]. *)
Definition update (d other : gmap Key Val) : gmap Key Val :=
  map_fold (fun k v acc => <[k:=v]> acc) d other.

End values.

Arguments PyObj Key {_ _} Val.

(** ** The functions *)

Section functions.

Context {FS : Type} `{!FileIO FS}.
Context {Key : Type} `{Countable Key} {Val Encoder : Type}.
Context `{!Serializers (Key:=Key) (Val:=Val) Encoder}.

Definition of_option {A} (e : Exception) (o : option A) : M FS A :=
  match o with
  | Some a => ret a
  | None => raise e
  end.

(** The outcome of a call that leaves the file system alone. *)
Definition of_result {A} (r : Result A) : M FS A :=
  fun fs => (fs, r).

Definition isdir (p : string) : M FS bool :=
  fun fs => (fs, Ok (fileio_isdir p fs)).

Definition exists_ (p : string) : M FS bool :=
  fun fs => (fs, Ok (fileio_exists p fs)).

Definition read_contents (p : string) : M FS string :=
  fun fs => (fs, read_file_contents_as_string p fs).

Definition write_yaml (file_path : string) (contents : gmap Key Val)
    (sort_keys : bool) : M FS unit :=
  (if negb (is_remote file_path) then
     let dir_ := Path_parent file_path in
     d <- isdir dir_ ;;
     if negb d then
       raise (FileNotFoundError ("Directory " ++ dir_ ++ " does not exist."))
     else ret tt
   else ret tt) ;;;
  text <- of_result (yaml_dump contents sort_keys) ;;
  write_file_contents_as_string file_path text.

Definition read_yaml (file_path : string) : M FS (PyObj Key Val) :=
  e <- exists_ file_path ;;
  if e then
    contents <- read_contents file_path ;;
    of_option YAMLError (yaml_safe_load contents)
  else raise (FileNotFoundError (file_path ++ " does not exist.")).

(** [x or {}] followed by the [.update] call, which only a dictionary
    has. *)
Definition or_empty_dict (x : PyObj Key Val) : M FS (gmap Key Val) :=
  match x with
  | PyNone => ret ∅
  | PyDict d => if decide (d = ∅) then ret ∅ else ret d
  | PyOther v => if bool_of v then raise AttributeError else ret ∅
  end.

Definition append_yaml (file_path : string) (contents : gmap Key Val)
  : M FS unit :=
  loaded <- read_yaml file_path ;;
  file_contents <- or_empty_dict loaded ;;
  let file_contents := update file_contents contents in
  (if negb (is_remote file_path) then
     let dir_ := Path_parent file_path in
     d <- isdir dir_ ;;
     if negb d then
       raise (FileNotFoundError ("Directory " ++ dir_ ++ " does not exist."))
     else ret tt
   else ret tt) ;;;
  text <- of_result (yaml_dump file_contents true) ;;
  write_file_contents_as_string file_path text.

Fixpoint ends_with (suffix s : string) : bool :=
  String.eqb s suffix ||
  match s with
  | EmptyString => false
  | String _ s' => ends_with suffix s'
  end.

Definition is_yaml (file_path : string) : bool :=
  if ends_with "yaml" file_path || ends_with "yml" file_path then true
  else false.

Definition write_json (file_path : string) (contents : gmap Key Val)
    (encoder : option Encoder) : M FS unit :=
  (if negb (is_remote file_path) then
     let dir_ := Path_parent file_path in
     d <- isdir dir_ ;;
     if negb d then
       raise (FileNotFoundError ("Directory " ++ dir_ ++ " does not exist."))
     else ret tt
   else ret tt) ;;;
  text <- of_result (json_dumps contents encoder) ;;
  write_file_contents_as_string file_path text.

Definition read_json (file_path : string) : M FS (PyObj Key Val) :=
  e <- exists_ file_path ;;
  if e then
    contents <- read_contents file_path ;;
    of_option JSONDecodeError (json_loads contents)
  else raise (FileNotFoundError (file_path ++ " does not exist.")).

Definition write_json_string (file_path : string) (contents : string)
  : M FS unit :=
  (if negb (is_remote file_path) then
     let dir_ := Path_parent file_path in
     d <- isdir dir_ ;;
     if negb d then
       raise (FileNotFoundError ("Directory " ++ dir_ ++ " does not exist."))
     else ret tt
   else ret tt) ;;;
  write_file_contents_as_string file_path contents.

Definition read_json_string (file_path : string) : M FS string :=
  e <- exists_ file_path ;;
  if e then read_contents file_path
  else raise (FileNotFoundError (file_path ++ " does not exist.")).

End functions.

(** ** A file system and a serializer kept in memory

    On these the functions run on concrete inputs.  The file system is a
    table of files and a list of directories; paths starting with [s3://]
    are the remote ones. *)
Record MemFS := {
  files : gmap string string;
  dirs : list string
}.

(** The part of a path before its last [/], if it has one. *)
Fixpoint before_last_slash (p : string) : option string :=
  match p with
  | EmptyString => None
  | String c p' =>
      match before_last_slash p' with
      | Some d => Some (String c d)
      | None => if Ascii.eqb c "/" then Some EmptyString else None
      end
  end.

Definition mem_parent (p : string) : string :=
  match before_last_slash p with
  | Some EmptyString => "/"
  | Some d => d
  | None => "."
  end.

Definition mem_isdir (p : string) (fs : MemFS) : bool :=
  bool_decide (p ∈ dirs fs).

Definition mem_exists (p : string) (fs : MemFS) : bool :=
  bool_decide (is_Some (files fs !! p)) || mem_isdir p fs.

Definition mem_read (p : string) (fs : MemFS) : Result string :=
  match files fs !! p with
  | Some text => Ok text
  | None =>
      if mem_isdir p fs then Raise (OtherError "IsADirectoryError")
      else Raise (FileNotFoundError (p ++ " does not exist!"))
  end.

Definition mem_write (p text : string) (fs : MemFS) : MemFS * Result unit :=
  if mem_isdir p fs then (fs, Raise (OtherError "IsADirectoryError"))
  else ({| files := <[p:=text]> (files fs); dirs := dirs fs |}, Ok tt).

Global Instance MemFS_fileio : FileIO MemFS := {|
  is_remote := String.prefix "s3://";
  Path_parent := mem_parent;
  fileio_exists := mem_exists;
  fileio_isdir := mem_isdir;
  read_file_contents_as_string := mem_read;
  write_file_contents_as_string := mem_write
|}.

(** The serializer handles flat mappings from strings to strings, written
    one [key: value] line per entry (entries in the table's own order,
    whatever [sort_keys] says); the empty text parses to [None]. *)
Definition flat_line (kv : string * string) : string :=
  fst kv ++ ": " ++ snd kv ++ String "010" EmptyString.

Definition flat_dump (d : gmap string string) : string :=
  String.concat "" (flat_line <$> map_to_list d).

Fixpoint lines (s : string) : list string :=
  match s with
  | EmptyString => []
  | String c s' =>
      if Ascii.eqb c "010" then EmptyString :: lines s'
      else match lines s' with
           | [] => [String c EmptyString]
           | l :: ls => String c l :: ls
           end
  end.

Fixpoint split_line (s : string) : option (string * string) :=
  match s with
  | EmptyString => None
  | String c s' =>
      if Ascii.eqb c ":" && String.prefix " " s'
      then Some (EmptyString, String.substring 1 (String.length s' - 1) s')
      else match split_line s' with
           | Some (k, v) => Some (String c k, v)
           | None => None
           end
  end.

Definition flat_load (s : string) : option (PyObj string string) :=
  match s with
  | EmptyString => Some PyNone
  | _ =>
      kvs ← mapM split_line (lines s);
      Some (PyDict (list_to_map kvs))
  end.

Global Instance flat_serializers : Serializers (Key:=string) (Val:=string) unit
  := {|
  bool_of := fun v => negb (String.eqb v "");
  yaml_dump := fun d _ => Ok (flat_dump d);
  yaml_safe_load := flat_load;
  json_dumps := fun d _ => Ok (flat_dump d);
  json_loads := flat_load
|}.

Definition tmp_fs : MemFS :=
  {| files := {[ "/tmp/conf.yaml" := "lr: 0.1" ++ String "010" "seed: 3"
                                     ++ String "010" "" ]};
     dirs := ["/"; "/tmp"] |}.

Definition new_entries : gmap string string :=
  {[ "seed" := "4"; "epochs" := "10" ]}.

(** [tmp_fs] once [new_entries] are written to [/tmp/run.yaml]. *)
Definition tmp_fs_written : MemFS :=
  {| files := <["/tmp/run.yaml" := flat_dump new_entries]> (files tmp_fs);
     dirs := dirs tmp_fs |}.

(** A serializer that refuses what the flat format cannot hold, a key or
    a value with a line break in it, with the exception it is given. *)
Fixpoint has_line_break (s : string) : bool :=
  match s with
  | EmptyString => false
  | String c s' => Ascii.eqb c "010" || has_line_break s'
  end.

Definition picky_dump (e : Exception) (d : gmap string string)
  : Result string :=
  if forallb (fun kv => negb (has_line_break (fst kv))
                        && negb (has_line_break (snd kv)))
             (map_to_list d)
  then Ok (flat_dump d) else Raise e.

Definition picky_serializers : Serializers (Key:=string) (Val:=string) unit
  := {|
  bool_of := fun v => negb (String.eqb v "");
  yaml_dump := fun d _ => picky_dump (OtherError "RepresenterError") d;
  yaml_safe_load := flat_load;
  json_dumps := fun d _ => picky_dump ValueError d;
  json_loads := flat_load
|}.

(** A serializer whose parser reads every text as a scalar: the text
    itself. *)
Definition scalar_serializers : Serializers (Key:=string) (Val:=string) unit
  := {|
  bool_of := fun v => negb (String.eqb v "");
  yaml_dump := fun d _ => Ok (flat_dump d);
  yaml_safe_load := fun text => Some (PyOther text);
  json_dumps := fun d _ => Ok (flat_dump d);
  json_loads := fun text => Some (PyOther text)
|}.

(** A file system whose configuration file is there and empty. *)
Definition blank_fs : MemFS :=
  {| files := {[ "/tmp/conf.yaml" := "" ]}; dirs := ["/"; "/tmp"] |}.

Definition two_lines : gmap string string :=
  {[ "note" := "first" ++ String "010" "second" ]}.

(** ** JSON on integers, strings, sequences and UUIDs

    [json.dumps] and [json.loads] on the dictionaries whose keys are
    strings and whose values are integers, strings, lists, tuples and
    UUIDs, with the encoder class of [yaml_utils.py], [UUIDEncoder].
    Entries are written in the table's own order.  A string is written between quotes
    as it is: one with a character that JSON writes as an escape (a quote,
    a backslash, a control character or one beyond ASCII) is outside this
    fragment, the serializer refuses it with [NotImplementedError] and the
    parser fails at a backslash.  Floats, [true], [false], and objects
    inside of values are outside it too.  The YAML library is no part of
    it. *)
#[warnings="-register-all"]
Inductive PyVal :=
| PInt (n : Z)
| PStr (s : string)
| PList (items : list PyVal)
| PTuple (items : list PyVal)
| PUuid (u : model_version.UUID).

(** [uuid.UUID.hex]: the 128 bits as 32 hexadecimal digits. *)
Definition hex_digit (d : N) : ascii :=
  if (d <? 10)%N then ascii_of_N (48 + d) else ascii_of_N (87 + d).

Fixpoint hex_digits (k : nat) (n : N) (acc : string) : string :=
  match k with
  | O => acc
  | S k' => hex_digits k' (n / 16)%N (String (hex_digit (n mod 16)%N) acc)
  end.

Definition hex (u : model_version.UUID) : string := hex_digits 32 u "".

(** [json.JSONEncoder.default] raises [TypeError]; [UUIDEncoder.default]
    returns the [hex] of a UUID and leaves the rest to it. *)
Definition JSONEncoder_default (obj : PyVal) : Result PyVal :=
  Raise TypeError.

Definition UUIDEncoder_default (obj : PyVal) : Result PyVal :=
  match obj with
  | PUuid u => Ok (PStr (hex u))
  | _ => JSONEncoder_default obj
  end.

(** The encoder classes of the repository. *)
Inductive Encoder := UUIDEncoder.

Definition default_of (cls : option Encoder) : PyVal -> Result PyVal :=
  match cls with
  | None => JSONEncoder_default
  | Some UUIDEncoder => UUIDEncoder_default
  end.

Definition quote : string := String "034" "".

(** The characters a JSON string holds as they are. *)
Definition plain (c : ascii) : bool :=
  (32 <=? nat_of_ascii c)%nat && (nat_of_ascii c <? 127)%nat
  && negb (Ascii.eqb c "034") && negb (Ascii.eqb c "\").

Fixpoint all_plain (s : string) : bool :=
  match s with
  | EmptyString => true
  | String c s' => plain c && all_plain s'
  end.

Definition quoted (s : string) : Result string :=
  if all_plain s then Ok (quote ++ s ++ quote)
  else Raise (OtherError "NotImplementedError").

(** The first exception of a sequence of outcomes, or all the values. *)
Fixpoint all_ok {A} (l : list (Result A)) : Result (list A) :=
  match l with
  | [] => Ok []
  | Ok a :: l' =>
      match all_ok l' with
      | Ok l'' => Ok (a :: l'')
      | Raise e => Raise e
      end
  | Raise e :: _ => Raise e
  end.

(** The encoder: a list and a tuple are both written as an array, and
    what it does not know goes through [default] and is encoded again.
    [depth] bounds the nesting as Python's recursion limit does. *)
Fixpoint encode (depth : nat) (default : PyVal -> Result PyVal) (v : PyVal)
  : Result string :=
  match depth with
  | O => Raise (OtherError "RecursionError")
  | S depth' =>
      let array items :=
        match all_ok (List.map (encode depth' default) items) with
        | Ok texts => Ok ("[" ++ String.concat ", " texts ++ "]")
        | Raise e => Raise e
        end in
      match v with
      | PInt n => Ok (pretty n)
      | PStr s => quoted s
      | PList items => array items
      | PTuple items => array items
      | PUuid _ =>
          match default v with
          | Ok v' => encode depth' default v'
          | Raise e => Raise e
          end
      end
  end.

Definition recursion_limit : nat := 1000.

Definition encode_entry (default : PyVal -> Result PyVal)
    (kv : string * PyVal) : Result string :=
  match quoted (fst kv) with
  | Ok k =>
      match encode recursion_limit default (snd kv) with
      | Ok v => Ok (k ++ ": " ++ v)
      | Raise e => Raise e
      end
  | Raise e => Raise e
  end.

Definition std_json_dumps (d : gmap string PyVal) (cls : option Encoder)
  : Result string :=
  match all_ok (List.map (encode_entry (default_of cls)) (map_to_list d)) with
  | Ok entries => Ok ("{" ++ String.concat ", " entries ++ "}")
  | Raise e => Raise e
  end.

(** The parser. *)
Definition is_space (c : ascii) : bool :=
  Ascii.eqb c " " || Ascii.eqb c "009" || Ascii.eqb c "010"
  || Ascii.eqb c "013".

Fixpoint skip_spaces (s : string) : string :=
  match s with
  | String c s' => if is_space c then skip_spaces s' else s
  | EmptyString => s
  end.

(** The characters up to the closing quote, and what follows it. *)
Fixpoint read_string (s : string) : option (string * string) :=
  match s with
  | EmptyString => None
  | String c s' =>
      if Ascii.eqb c "034" then Some (EmptyString, s')
      else if Ascii.eqb c "\" || (nat_of_ascii c <? 32)%nat then None
      else match read_string s' with
           | Some (body, rest) => Some (String c body, rest)
           | None => None
           end
  end.

Fixpoint read_digits (s : string) (acc : Z) : Z * string :=
  match s with
  | String c s' =>
      if is_digit c
      then read_digits s' (10 * acc + Z.of_nat (nat_of_ascii c - 48))%Z
      else (acc, s)
  | EmptyString => (acc, s)
  end.

(** An integer: an optional minus sign, then [0] or digits that do not
    start with [0]; no fraction and no exponent may follow. *)
Definition read_natural (s : string) : option (Z * string) :=
  match s with
  | String c s' =>
      if Ascii.eqb c "0" then Some (0%Z, s')
      else if is_digit c then Some (read_digits s 0%Z)
      else None
  | EmptyString => None
  end.

Definition starts_float (s : string) : bool :=
  match s with
  | String c _ => Ascii.eqb c "." || Ascii.eqb c "e" || Ascii.eqb c "E"
  | EmptyString => false
  end.

Definition read_int (s : string) : option (Z * string) :=
  let '(sign, digits) :=
    match s with
    | String c s' => if Ascii.eqb c "-" then ((-1)%Z, s') else (1%Z, s)
    | EmptyString => (1%Z, s)
    end in
  match read_natural digits with
  | Some (n, rest) =>
      if starts_float rest then None else Some ((sign * n)%Z, rest)
  | None => None
  end.

Fixpoint read_value (fuel : nat) (s : string) : option (PyVal * string) :=
  match fuel with
  | O => None
  | S fuel' =>
      match skip_spaces s with
      | String c rest =>
          if Ascii.eqb c "034" then
            match read_string rest with
            | Some (x, rest') => Some (PStr x, rest')
            | None => None
            end
          else if Ascii.eqb c "[" then
            match skip_spaces rest with
            | String c' rest' =>
                if Ascii.eqb c' "]" then Some (PList [], rest')
                else match read_items fuel' rest with
                     | Some (items, rest'') => Some (PList items, rest'')
                     | None => None
                     end
            | EmptyString => None
            end
          else
            match read_int (String c rest) with
            | Some (n, rest') => Some (PInt n, rest')
            | None => None
            end
      | EmptyString => None
      end
  end
with read_items (fuel : nat) (s : string) : option (list PyVal * string) :=
  match fuel with
  | O => None
  | S fuel' =>
      match read_value fuel' s with
      | Some (v, rest) =>
          match skip_spaces rest with
          | String c rest' =>
              if Ascii.eqb c "," then
                match read_items fuel' rest' with
                | Some (vs, rest'') => Some (v :: vs, rest'')
                | None => None
                end
              else if Ascii.eqb c "]" then Some ([v], rest')
              else None
          | EmptyString => None
          end
      | None => None
      end
  end.

Fixpoint read_members (fuel : nat) (s : string)
  : option (list (string * PyVal) * string) :=
  match fuel with
  | O => None
  | S fuel' =>
      match skip_spaces s with
      | String c rest =>
          if negb (Ascii.eqb c "034") then None
          else
            match read_string rest with
            | Some (k, rest1) =>
                match skip_spaces rest1 with
                | String c1 rest2 =>
                    if negb (Ascii.eqb c1 ":") then None
                    else
                      match read_value (S (String.length rest2)) rest2 with
                      | Some (v, rest3) =>
                          match skip_spaces rest3 with
                          | String c3 rest4 =>
                              if Ascii.eqb c3 "," then
                                match read_members fuel' rest4 with
                                | Some (kvs, rest5) =>
                                    Some ((k, v) :: kvs, rest5)
                                | None => None
                                end
                              else if Ascii.eqb c3 "}"
                              then Some ([(k, v)], rest4)
                              else None
                          | EmptyString => None
                          end
                      | None => None
                      end
                | EmptyString => None
                end
            | None => None
            end
      | EmptyString => None
      end
  end.

(** Nothing but white space may follow the value. *)
Definition at_end {A} (x : A) (rest : string) : option A :=
  match skip_spaces rest with
  | EmptyString => Some x
  | _ => None
  end.

Definition std_json_loads (s : string) : option (PyObj string PyVal) :=
  let fuel := S (String.length s) in
  match skip_spaces s with
  | String c rest =>
      if Ascii.eqb c "{" then
        match skip_spaces rest with
        | String c' rest' =>
            if Ascii.eqb c' "}" then at_end (PyDict ∅) rest'
            else match read_members fuel rest with
                 | Some (kvs, rest'') =>
                     (* of two entries under one key the later one stays *)
                     at_end (PyDict (list_to_map (reverse kvs))) rest''
                 | None => None
                 end
        | EmptyString => None
        end
      else if String.prefix "null" (String c rest)
      then at_end PyNone (String.substring 4 (String.length rest) (String c rest))
      else match read_value fuel (String c rest) with
           | Some (v, rest') => at_end (PyOther v) rest'
           | None => None
           end
  | EmptyString => None
  end.

Definition truth (v : PyVal) : bool :=
  match v with
  | PInt n => negb (n =? 0)%Z
  | PStr s => negb (String.eqb s "")
  | PList items | PTuple items => negb (bool_decide (items = []))
  | PUuid _ => true
  end.

Definition json_serializers : Serializers (Key:=string) (Val:=PyVal) Encoder := {|
  bool_of := truth;
  yaml_dump := fun _ _ => Raise (OtherError "NotImplementedError");
  yaml_safe_load := fun _ => None;
  json_dumps := std_json_dumps;
  json_loads := std_json_loads
|}.

(** A dictionary with a tuple in it, and one with a UUID. *)
Definition pair_entry : gmap string PyVal :=
  {[ "a" := PTuple [PInt 1; PInt 2] ]}.

Definition id_entry : gmap string PyVal := {[ "id" := PUuid 1000%N ]}.

End yaml_utils.

(** * Properties *)

(** ** The monad *)

Lemma bind_ok {S A B} (m : M S A) (k : A -> M S B) s s' a :
  m s = (s', Ok a) -> bind m k s = k a s'.
Proof. intros E. unfold bind. by rewrite E. Qed.

(** ** Strings *)

Example lower_Production `{!UnicodeData} : lower "Production" = "production".
Proof. reflexivity. Qed.
Example isnumeric_42 `{!UnicodeData} : isnumeric "42" = true.
Proof. reflexivity. Qed.
Example isnumeric_empty `{!UnicodeData} : isnumeric "" = false.
Proof. reflexivity. Qed.
Example isnumeric_None `{!UnicodeData} : isnumeric "None" = false.
Proof. reflexivity. Qed.
Example pretty_int : pretty 17%Z = "17" /\ pretty (-3)%Z = "-3".
Proof. split; reflexivity. Qed.

(** * Properties of [ModelVersion] *)

Module ModelVersionSpec.
Import model_version.
Local Open Scope list_scope.

Section spec.

Context {Store : Type} `{!ZenStore Store} `{!UnicodeData}.
Variable client : Client.
Variable stages : list string.

Local Abbreviation Heap := (model_version.Heap Store).

Implicit Types (h : Heap) (m : ModelResponseModel)
  (mv : ModelVersionResponseModel) (self : ModelVersion).

Local Arguments _get_or_create_model : simpl never.
Local Arguments adopt_version_of_this_run : simpl never.
Local Arguments _get_model_version : simpl never.
Local Arguments try_get_model_version : simpl never.
Local Arguments isnumeric : simpl never.
Local Arguments lower : simpl never.
Local Arguments in_stages : simpl never.
Local Arguments _get_or_create_model_version : simpl never.

Ltac run :=
  unfold bind, try_except, try_finally, ret, raise, modify, get,
    self_, on_this, request; cbn.

(** *** [_get_or_create_model] *)

Lemma get_or_create_model_fetched h st1 m :
  get_model (name (this h)) (zen_store h) = (st1, Ok m) ->
  _get_or_create_model client h =
    ({| zen_store := st1;
        calls := calls h ++ [GetModel (name (this h))];
        this := set_model_id (mr_id m) (this h) |}, Ok m).
Proof. intros E. unfold _get_or_create_model. run. by rewrite E. Qed.

Lemma get_or_create_model_created h st1 st2 st3 r m :
  get_model (name (this h)) (zen_store h) = (st1, Raise KeyError) ->
  create_model (model_request_of client (this h)) st1 = (st2, r) ->
  is_ok r = true \/ r = Raise EntityExistsError ->
  get_model (name (this h)) st2 = (st3, Ok m) ->
  _get_or_create_model client h =
    ({| zen_store := st3;
        calls := calls h ++ [GetModel (name (this h));
                             CreateModel (model_request_of client (this h));
                             GetModel (name (this h))];
        this := set_model_id (mr_id m) (this h) |}, Ok m).
Proof.
  intros E1 E2 Hr E3. unfold _get_or_create_model. run.
  rewrite E1; cbn. rewrite E2; cbn.
  destruct Hr as [Hr | ->].
  - destruct r as [m' | e]; [| discriminate]. cbn. rewrite E3; cbn.
    by rewrite <- !app_assoc.
  - cbn. rewrite E3; cbn. by rewrite <- !app_assoc.
Qed.

(** Whatever happens, the method touches no field of [self] but
    [_model_id], and sets that one exactly when it returns. *)
Lemma get_or_create_model_this h h' r :
  _get_or_create_model client h = (h', r) ->
  match r with
  | Ok m =>
      this h' = set_model_id (mr_id m) (this h) /\
      exists st st', get_model (name (this h)) st = (st', Ok m)
  | Raise _ => this h' = this h
  end.
Proof.
  unfold _get_or_create_model. run.
  destruct (get_model _ (zen_store h)) as [st1 [m | e]] eqn:E1; cbn.
  { intros [= <- <-]. eauto. }
  destruct e; cbn; try (intros [= <- <-]; reflexivity).
  destruct (create_model _ st1) as [st2 [m' | e]] eqn:E2; cbn.
  - destruct (get_model _ st2) as [st3 [m | e]] eqn:E3; cbn;
      intros [= <- <-]; cbn; eauto.
  - destruct e; cbn;
      destruct (get_model _ st2) as [st3 [m | e]] eqn:E3; cbn;
      intros [= <- <-]; cbn; eauto.
Qed.

Lemma get_or_create_model_ok_this h h' m :
  _get_or_create_model client h = (h', Ok m) ->
  this h' = set_model_id (mr_id m) (this h).
Proof. intros E. by destruct (get_or_create_model_this _ _ _ E). Qed.

(** C4. [_get_or_create_model] returns the model the store holds under
    [self.name]: it is fetched when it exists; when the first [get_model]
    raises [KeyError] a model is created from the metadata fields of the
    [ModelVersion] and fetched; when that creation raises
    [EntityExistsError] the error is swallowed and the existing model is
    fetched; and every successful call sets [_model_id] to the id of the
    model it returns, which is an answer of the store to [get_model] for
    [self.name] (so it bears that name when the store answers by name). *)
Theorem get_or_create_model_returns_named_model h :
  let n := name (this h) in
  let rq := model_request_of client (this h) in
  (forall st1 m,
      get_model n (zen_store h) = (st1, Ok m) ->
      _get_or_create_model client h =
        ({| zen_store := st1; calls := calls h ++ [GetModel n];
            this := set_model_id (mr_id m) (this h) |}, Ok m)) /\
  (forall st1 st2 st3 r m,
      get_model n (zen_store h) = (st1, Raise KeyError) ->
      create_model rq st1 = (st2, r) ->
      is_ok r = true \/ r = Raise EntityExistsError ->
      get_model n st2 = (st3, Ok m) ->
      _get_or_create_model client h =
        ({| zen_store := st3;
            calls := calls h ++ [GetModel n; CreateModel rq; GetModel n];
            this := set_model_id (mr_id m) (this h) |}, Ok m)) /\
  (rq_name rq = n /\ rq_license rq = license (this h) /\
   rq_description rq = description (this h) /\
   rq_audience rq = audience (this h) /\
   rq_use_cases rq = use_cases (this h) /\
   rq_limitations rq = limitations (this h) /\
   rq_trade_offs rq = trade_offs (this h) /\
   rq_ethics rq = ethics (this h) /\ rq_tags rq = tags (this h)) /\
  (forall h' m,
      _get_or_create_model client h = (h', Ok m) ->
      _model_id (this h') = Some (mr_id m) /\
      (exists st st', get_model n st = (st', Ok m)) /\
      ((forall n' st st' m',
           get_model n' st = (st', Ok m') -> mr_name m' = n') ->
       mr_name m = n)).
Proof.
  cbn. split; [| split; [| split]].
  - apply get_or_create_model_fetched.
  - apply get_or_create_model_created.
  - by repeat split.
  - intros h' m E.
    destruct (get_or_create_model_this _ _ _ E) as [-> (st & st' & Hst)].
    repeat split; eauto.
Qed.

(** *** [_get_or_create_model_version] *)

Lemma first_step_version_none self l :
  existsb (fun step => created_here_for self (snd step)) l = false ->
  first_step_version self l = None.
Proof.
  induction l as [| [k step_mv] l IH]; cbn; [done |].
  intros [E1 E2]%orb_false_iff. rewrite E1. auto.
Qed.

Lemma adopt_when_set h :
  truthy (version (this h)) = true ->
  adopt_version_of_this_run client h = (h, Ok tt).
Proof. intros E. unfold adopt_version_of_this_run. run. by rewrite E. Qed.

Lemma adopt_nothing h :
  truthy (version (this h)) = false ->
  created_in_this_run client (this h) = false ->
  adopt_version_of_this_run client h = (h, Ok tt).
Proof.
  intros E Hc. unfold adopt_version_of_this_run, created_in_this_run in *.
  run. rewrite E; cbn.
  destruct (step_context client) as [context |]; [| done].
  apply orb_false_iff in Hc as [-> Hs].
  by rewrite (first_step_version_none _ _ Hs).
Qed.

(** The [try:] block sends at most one request, a [get_model_version]. *)
Lemma try_get_model_version_set h st2 r :
  truthy (version (this h)) = true ->
  get_model_version (name (this h)) (version (this h)) (zen_store h)
    = (st2, r) ->
  try_get_model_version client h =
    ({| zen_store := st2;
        calls := calls h ++
                 [GetModelVersion (name (this h)) (version (this h))];
        this := this h |}, r).
Proof.
  intros Ht E. unfold try_get_model_version.
  rewrite (bind_ok _ _ _ _ _ (adopt_when_set _ Ht)).
  run. rewrite Ht. unfold _get_model_version. run. by rewrite E.
Qed.

Lemma try_get_model_version_unset h :
  version (this h) = None ->
  created_in_this_run client (this h) = false ->
  try_get_model_version client h = (h, Raise KeyError).
Proof.
  intros Hv Hc. unfold try_get_model_version.
  rewrite (bind_ok _ _ _ _ _ (adopt_nothing _ ltac:(by rewrite Hv) Hc)).
  run. by rewrite Hv.
Qed.

Lemma adopt_calls h h' r :
  adopt_version_of_this_run client h = (h', r) ->
  r = Ok tt /\ zen_store h' = zen_store h /\ calls h' = calls h.
Proof.
  unfold adopt_version_of_this_run. run.
  destruct (negb _); [| by intros [= <- <-]].
  destruct (step_context client) as [context |]; [| by intros [= <- <-]].
  destruct (created_here_for _ _).
  - destruct (pipeline_model_version context); by intros [= <- <-].
  - destruct (first_step_version _ _); by intros [= <- <-].
Qed.

Lemma try_get_model_version_calls h h' r :
  try_get_model_version client h = (h', r) ->
  calls h' = calls h \/
  exists n v, calls h' = calls h ++ [GetModelVersion n v].
Proof.
  unfold try_get_model_version. unfold bind at 1.
  destruct (adopt_version_of_this_run client h) as [h1 r1] eqn:E1.
  destruct (adopt_calls _ _ _ E1) as (-> & Hst & Hc).
  run. destruct (truthy _).
  - unfold _get_model_version. run.
    destruct (get_model_version _ _ _) as [st2 r2].
    intros [= <- <-]. cbn. rewrite Hc. eauto.
  - intros [= <- <-]. auto.
Qed.

Lemma get_or_create_model_calls h h' r :
  _get_or_create_model client h = (h', r) ->
  exists l, calls h' = calls h ++ l /\
            List.filter is_create_model_version l = [].
Proof.
  unfold _get_or_create_model. run.
  destruct (get_model _ (zen_store h)) as [st1 [m | e]] eqn:E1; cbn.
  { intros [= <- <-]. by eexists [_]. }
  destruct e; cbn; try (intros [= <- <-]; by eexists [_]).
  destruct (create_model _ st1) as [st2 [m' | e]] eqn:E2; cbn.
  - destruct (get_model _ st2) as [st3 [m | e]] eqn:E3; cbn;
      intros [= <- <-]; cbn; rewrite <- !app_assoc; by eexists [_; _; _].
  - destruct e; cbn;
      destruct (get_model _ st2) as [st3 [m | e]] eqn:E3; cbn;
      intros [= <- <-]; cbn; rewrite <- !app_assoc; by eexists [_; _; _].
Qed.

(** The state of [self] after a successful resolution to [mv]. *)
Lemma get_or_create_model_version_fetched h h1 st2 m mv :
  truthy (version (this h)) = true ->
  _get_or_create_model client h = (h1, Ok m) ->
  get_model_version (name (this h)) (version (this h)) (zen_store h1)
    = (st2, Ok mv) ->
  _get_or_create_model_version client stages h =
    ({| zen_store := st2;
        calls := calls h1 ++
                 [GetModelVersion (name (this h)) (version (this h))];
        this := resolved mv (this h1) |}, Ok mv).
Proof.
  intros Ht E1 E2. unfold _get_or_create_model_version.
  rewrite (bind_ok _ _ _ _ _ E1).
  pose proof (get_or_create_model_ok_this _ _ _ E1) as Hthis.
  destruct h1 as [st1 log1 self1]; cbn in *; subst self1.
  run. by rewrite (try_get_model_version_set _ st2 (Ok mv)).
Qed.

Lemma get_or_create_model_version_created h h1 st2 m mv :
  version (this h) = None ->
  created_in_this_run client (this h) = false ->
  _get_or_create_model client h = (h1, Ok m) ->
  create_model_version (model_version_request_of client (this h) m) (zen_store h1)
    = (st2, Ok mv) ->
  _get_or_create_model_version client stages h =
    ({| zen_store := st2;
        calls := calls h1 ++ [CreateModelVersion (model_version_request_of client (this h) m)];
        this := resolved mv
                  (set_was_created_in_this_run true
                     (set_version (Some (VStr (mvr_name mv))) (this h1))) |},
     Ok mv).
Proof.
  intros Hv Hc E1 E2. unfold _get_or_create_model_version.
  rewrite (bind_ok _ _ _ _ _ E1).
  pose proof (get_or_create_model_ok_this _ _ _ E1) as Hthis.
  destruct h1 as [st1 log1 self1]; cbn in *; subst self1.
  run. rewrite try_get_model_version_unset by done. cbn.
  rewrite Hv. cbn. rewrite isnumeric_None. run.
  change (model_version_request_of client (set_model_id _ (this h)) m)
    with (model_version_request_of client (this h) m).
  by rewrite E2.
Qed.

Lemma get_or_create_model_version_reserved h h1 h2 m :
  _get_or_create_model client h = (h1, Ok m) ->
  try_get_model_version client h1 = (h2, Raise KeyError) ->
  (truthy (version (this h2)) = true /\
   in_stages stages (lower (str (version (this h2)))) = true) \/
  isnumeric (str (version (this h2))) = true ->
  exists why,
    _get_or_create_model_version client stages h =
      (h2, Raise (ReservedNameError why (str (version (this h2))))).
Proof.
  intros E1 E2 Hres. unfold _get_or_create_model_version.
  rewrite (bind_ok _ _ _ _ _ E1). run. rewrite E2. cbn.
  destruct (truthy _ && in_stages _ _) eqn:Hs; [by eexists |].
  destruct Hres as [[Ht Hi] | Hn].
  - rewrite Ht, Hi in Hs. discriminate.
  - rewrite Hn. by eexists.
Qed.

Lemma get_or_create_model_version_ok h h' mv :
  _get_or_create_model_version client stages h = (h', Ok mv) ->
  exists self', this h' = resolved mv self'.
Proof.
  unfold _get_or_create_model_version. unfold bind at 1.
  destruct (_get_or_create_model client h) as [h1 [m | e]]; [| done].
  run. destruct (try_get_model_version client h1) as [h2 [mv' | e]]; cbn.
  { intros [= <- <-]. cbn. by eexists. }
  destruct e; cbn; try done.
  destruct (truthy _ && in_stages _ _); [done |].
  destruct (isnumeric _); [done |]. run.
  destruct (create_model_version _ _) as [st3 [mv' | e]]; cbn; [| done].
  intros [= <- <-]. cbn. by eexists.
Qed.

(** *** The requests a resolution sends *)

Lemma get_or_create_model_shape h :
  let h1 := fst (_get_or_create_model client h) in
  let n := name (this h) in
  calls h1 = calls h ++ [GetModel n] \/
  calls h1 = calls h ++ [GetModel n;
                         CreateModel (model_request_of client (this h));
                         GetModel n].
Proof.
  cbn. unfold _get_or_create_model. run.
  destruct (get_model _ (zen_store h)) as [st1 [m | e]] eqn:E1; cbn;
    [by left |].
  destruct e; cbn; try by left.
  destruct (create_model _ st1) as [st2 [m' | e]] eqn:E2; cbn.
  - destruct (get_model _ st2) as [st3 [m | e]] eqn:E3; cbn;
      rewrite <- !app_assoc; by right.
  - destruct e; cbn;
      destruct (get_model _ st2) as [st3 [m | e]] eqn:E3; cbn;
      rewrite <- !app_assoc; by right.
Qed.

Lemma adopt_this h h' r :
  adopt_version_of_this_run client h = (h', r) ->
  this h' = this h \/ exists v, this h' = set_version v (this h).
Proof.
  unfold adopt_version_of_this_run. run.
  destruct (negb _); [| intros [= <- <-]; by left].
  destruct (step_context client) as [context |];
    [| intros [= <- <-]; by left].
  destruct (created_here_for _ _).
  - destruct (pipeline_model_version context);
      intros [= <- <-]; cbn; eauto.
  - destruct (first_step_version _ _); intros [= <- <-]; cbn; eauto.
Qed.

Lemma try_get_model_version_this h h' r :
  try_get_model_version client h = (h', r) ->
  this h' = this h \/ exists v, this h' = set_version v (this h).
Proof.
  unfold try_get_model_version. unfold bind at 1.
  destruct (adopt_version_of_this_run client h) as [h1 r1] eqn:E1.
  destruct (adopt_calls _ _ _ E1) as (-> & _ & _).
  apply adopt_this in E1. run. destruct (truthy _).
  - unfold _get_model_version. run.
    destruct (get_model_version _ _ _) as [st2 r2].
    by intros [= <- <-].
  - by intros [= <- <-].
Qed.

(** What follows the resolution of the model: at most a fetch and a
    creation, and [self] changed in [version], [was_created_in_this_run]
    and the private attributes only. *)
Lemma after_the_model h h1 m :
  _get_or_create_model client h = (h1, Ok m) ->
  let h' := fst (_get_or_create_model_version client stages h) in
  let rq := model_version_request_of client (this h) m in
  (exists l,
      calls h' = calls h1 ++ l /\
      (l = [] \/ (exists n v, l = [GetModelVersion n v]) \/
       l = [CreateModelVersion rq] \/
       exists n v, l = [GetModelVersion n v; CreateModelVersion rq])) /\
  model_request_of client (this h') = model_request_of client (this h) /\
  save_models_to_registry (this h') = save_models_to_registry (this h) /\
  (was_created_in_this_run (this h) = true ->
   was_created_in_this_run (this h') = true).
Proof.
  intros E1. cbn. unfold _get_or_create_model_version.
  rewrite (bind_ok _ _ _ _ _ E1).
  pose proof (get_or_create_model_ok_this _ _ _ E1) as Hthis.
  assert (Hrq : model_version_request_of client (this h1) m
                = model_version_request_of client (this h) m)
    by by rewrite Hthis.
  assert (Hframe : forall self',
             this h1 = self' \/ (exists v, self' = set_version v (this h1)) ->
             model_request_of client self' = model_request_of client (this h)
             /\ save_models_to_registry self'
                = save_models_to_registry (this h)
             /\ (was_created_in_this_run (this h) = true ->
                 was_created_in_this_run self' = true)).
  { intros self' [<- | [v ->]]; rewrite Hthis; by repeat split. }
  run. rewrite Hrq.
  destruct (try_get_model_version client h1) as [h2 [mv | e]] eqn:E2; cbn.
  all: pose proof (try_get_model_version_this _ _ _ E2) as Ht.
  all: assert (Ht' : this h1 = this h2 \/
                     exists v, this h2 = set_version v (this h1))
         by (destruct Ht as [-> | ?]; auto).
  all: destruct (Hframe _ Ht') as (F1 & F2 & F3).
  all: pose proof (try_get_model_version_calls _ _ _ E2) as Hc.
  - split; [| by repeat split].
    destruct Hc as [-> | (n & v & ->)]; [exists [] | eexists [_]];
      (split; [by rewrite ?app_nil_r |]); eauto 10.
  - assert (Hstop : (exists l,
                 calls h2 = calls h1 ++ l /\
                 (l = [] \/ (exists n v, l = [GetModelVersion n v]) \/
                  l = [CreateModelVersion
                         (model_version_request_of client (this h) m)] \/
                  exists n v,
                    l = [GetModelVersion n v;
                         CreateModelVersion
                           (model_version_request_of client (this h) m)])) /\
              model_request_of client (this h2)
                = model_request_of client (this h) /\
              save_models_to_registry (this h2)
                = save_models_to_registry (this h) /\
              (was_created_in_this_run (this h) = true ->
               was_created_in_this_run (this h2) = true)).
    { split; [| by repeat split].
      destruct Hc as [-> | (n & v & ->)]; [exists [] | eexists [_]];
        (split; [by rewrite ?app_nil_r |]); eauto 10. }
    destruct e; cbn; try exact Hstop.
    destruct (truthy _ && in_stages _ _); [exact Hstop |].
    destruct (isnumeric _); [exact Hstop |]. run.
    destruct (create_model_version _ _) as [st3 [mv | e]]; cbn.
    + split; [| by repeat split].
      destruct Hc as [-> | (n & v & ->)]; [eexists [_] | eexists [_; _]];
        (split; [by rewrite <- ?app_assoc |]); eauto 10.
    + split; [| by repeat split].
      destruct Hc as [-> | (n & v & ->)]; [eexists [_] | eexists [_; _]];
        (split; [by rewrite <- ?app_assoc |]); eauto 10.
Qed.

Lemma model_failed h h1 e :
  _get_or_create_model client h = (h1, Raise e) ->
  _get_or_create_model_version client stages h = (h1, Raise e).
Proof. intros E. unfold _get_or_create_model_version, bind. by rewrite E. Qed.

Lemma resolution_starts_with_get_model h :
  exists l,
    calls (fst (_get_or_create_model_version client stages h))
    = calls h ++ GetModel (name (this h)) :: l.
Proof.
  pose proof (get_or_create_model_shape h) as Hm. cbn in Hm.
  destruct (_get_or_create_model client h) as [h1 [m | e]] eqn:E1;
    cbn in Hm.
  - destruct (after_the_model _ _ _ E1) as ((l & -> & _) & _).
    destruct Hm as [-> | ->]; rewrite <- app_assoc; cbn; eauto.
  - rewrite (model_failed _ _ _ E1). cbn. destruct Hm as [-> | ->]; eauto.
Qed.

(** *** The cached properties *)

Lemma read_cached h p :
  is_set (attribute p (this h)) = true ->
  read client stages p h = (h, Ok (attribute p (this h))).
Proof.
  destruct p; cbn; unfold id, model_id, number; run.
  - destruct (_id (this h)) eqn:E; cbn;
      [by rewrite E | done].
  - destruct (_model_id (this h)) eqn:E; cbn;
      [by rewrite E | done].
  - destruct (_number (this h)) eqn:E; cbn;
      [by rewrite E | done].
Qed.

Lemma read_all_cached h ps :
  (forall p, In p ps -> is_set (attribute p (this h)) = true) ->
  read_all client stages ps h =
    (h, Ok (List.map (fun p => attribute p (this h)) ps)).
Proof.
  induction ps as [| p ps IH]; intros Hset; cbn; [done |].
  rewrite (bind_ok _ _ _ _ _ (read_cached h p (Hset p (or_introl eq_refl)))).
  rewrite (bind_ok _ _ _ _ _ (IH (fun q Hq => Hset q (or_intror Hq)))).
  done.
Qed.

(** An access with the attribute unset ends where the resolution ends,
    whether that returns or raises. *)
Lemma id_unset h :
  _id (this h) = None ->
  fst (id client stages h)
    = fst (_get_or_create_model_version client stages h).
Proof.
  intros Hnone. unfold id. run. rewrite Hnone. unfold swallow_reserved. run.
  destruct (_get_or_create_model_version client stages h) as [h' [mv | e]];
    cbn; [done |]. by destruct e.
Qed.

Lemma number_unset h :
  _number (this h) = None ->
  fst (number client stages h)
    = fst (_get_or_create_model_version client stages h).
Proof.
  intros Hnone. unfold number. run. rewrite Hnone.
  unfold swallow_reserved. run.
  destruct (_get_or_create_model_version client stages h) as [h' [mv | e]];
    cbn; [done |]. by destruct e.
Qed.

Lemma model_id_unset h :
  _model_id (this h) = None ->
  fst (model_id client h) = fst (_get_or_create_model client h).
Proof.
  intros Hnone. unfold model_id. run. rewrite Hnone.
  by destruct (_get_or_create_model client h) as [h' [m | e]].
Qed.

Lemma read_heap h p :
  fst (read client stages p h) =
    match p with
    | Id => fst (id client stages h)
    | ModelId => fst (model_id client h)
    | Number => fst (number client stages h)
    end.
Proof.
  destruct p; unfold read, bind.
  - by destruct (id client stages h) as [h' [x | e]].
  - by destruct (model_id client h) as [h' [x | e]].
  - by destruct (number client stages h) as [h' [x | e]].
Qed.

Lemma get_or_create_model_starts h :
  exists l,
    calls (fst (_get_or_create_model client h))
    = calls h ++ GetModel (name (this h)) :: l.
Proof.
  destruct (get_or_create_model_shape h) as [-> | ->]; eauto.
Qed.

Lemma log_grows (log : list StoreCall) c l : log ++ c :: l <> log.
Proof.
  intros E. apply (f_equal length) in E.
  rewrite length_app in E. cbn in E. lia.
Qed.

(** *** Equality and hashing *)

Lemma version_eqb_refl v : version_eqb v v = true.
Proof.
  destruct v as [[x | n | x] |]; cbn; auto using String.eqb_refl, Z.eqb_refl.
Qed.

Lemma version_eqb_str a b : version_eqb a b = true -> str a = str b.
Proof.
  destruct a as [[x | n | x] |], b as [[y | k | y] |]; cbn; try done.
  all: try (by intros ->%String.eqb_eq).
  by intros ->%Z.eqb_eq.
Qed.

(** *** The claims on resolution *)

(** C1. [_get_or_create_model_version] resolves to the existing model
    version when [version] is set (is true in [if self.version]) to an
    identifier the store knows: it is fetched by [_get_model_version], no
    creation request is sent, and [version] and [was_created_in_this_run]
    stay as they were.  When [version] is [None] and no model version of the
    model [name] was created in this run's pipeline or step configurations,
    a model version is created, [version] becomes the name of the created
    version and [was_created_in_this_run] becomes [True]. *)
Theorem get_or_create_model_version_fetches_or_creates h :
  let n := name (this h) in
  let v := version (this h) in
  (forall st1 st2 m mv,
      truthy v = true ->
      get_model n (zen_store h) = (st1, Ok m) ->
      get_model_version n v st1 = (st2, Ok mv) ->
      let h' :=
        {| zen_store := st2;
           calls := calls h ++ [GetModel n; GetModelVersion n v];
           this := resolved mv (set_model_id (mr_id m) (this h)) |} in
      _get_or_create_model_version client stages h = (h', Ok mv) /\
      List.filter is_create (calls h') = List.filter is_create (calls h) /\
      version (this h') = v /\
      was_created_in_this_run (this h')
        = was_created_in_this_run (this h)) /\
  (forall h1 st2 m mv,
      v = None ->
      created_in_this_run client (this h) = false ->
      _get_or_create_model client h = (h1, Ok m) ->
      create_model_version (model_version_request_of client (this h) m)
        (zen_store h1) = (st2, Ok mv) ->
      exists h',
        _get_or_create_model_version client stages h = (h', Ok mv) /\
        zen_store h' = st2 /\
        calls h' =
          calls h1 ++
          [CreateModelVersion (model_version_request_of client (this h) m)] /\
        version (this h') = Some (VStr (mvr_name mv)) /\
        was_created_in_this_run (this h') = true /\
        _id (this h') = Some (mvr_id mv)).
Proof.
  cbn. split.
  - intros st1 st2 m mv Ht E1 E2.
    pose proof (get_or_create_model_fetched _ _ _ E1) as Em.
    rewrite (get_or_create_model_version_fetched _ _ st2 m mv Ht Em E2).
    cbn. rewrite <- app_assoc. repeat split.
    rewrite List.filter_app. cbn. by rewrite app_nil_r.
  - intros h1 st2 m mv Hv Hc E1 E2.
    eexists. split; [by apply get_or_create_model_version_created |].
    by repeat split.
Qed.

(** C2, as the code has it.  When [_get_or_create_model_version] reaches
    the creation path (the [try:] block raised [KeyError]) and [version] is
    true and [str(version).lower()] is a stage name, or [str(version)] is
    numeric, it raises [ReservedNameError] and sends no
    [create_model_version] request.  The store is then as the resolution of
    the model and the failed fetch left it: the model itself may have been
    created, and nothing is created when the first [get_model] found it. *)
Theorem reserved_version_is_not_created h h1 h2 m :
  _get_or_create_model client h = (h1, Ok m) ->
  try_get_model_version client h1 = (h2, Raise KeyError) ->
  (truthy (version (this h2)) = true /\
   in_stages stages (lower (str (version (this h2)))) = true) \/
  isnumeric (str (version (this h2))) = true ->
  (exists why,
      _get_or_create_model_version client stages h =
        (h2, Raise (ReservedNameError why (str (version (this h2)))))) /\
  List.filter is_create_model_version (calls h2)
    = List.filter is_create_model_version (calls h) /\
  (forall st1 m',
      get_model (name (this h)) (zen_store h) = (st1, Ok m') ->
      List.filter is_create (calls h2) = List.filter is_create (calls h)).
Proof.
  intros E1 E2 Hres. split; [| split].
  - by apply (get_or_create_model_version_reserved _ _ _ _ E1 E2).
  - destruct (get_or_create_model_calls _ _ _ E1) as (l & Hl & Hf).
    destruct (try_get_model_version_calls _ _ _ E2) as [-> | (n & v & ->)];
      rewrite Hl, !List.filter_app, Hf; cbn; by rewrite !app_nil_r.
  - intros st1 m' Eg.
    rewrite (get_or_create_model_fetched _ _ _ Eg) in E1.
    injection E1 as <- <-.
    destruct (try_get_model_version_calls _ _ _ E2) as [-> | (n & v & ->)];
      cbn; rewrite !List.filter_app; cbn; by rewrite !app_nil_r.
Qed.

(** C9. When [version] is set to a stage name or to a numeric string that
    the store does not know, [id] and [number] (still unresolved) swallow
    the [ReservedNameError] of the resolution and return [None]; so does
    [stage]. *)
Theorem reserved_version_reads_as_none h h1 st2 m :
  let n := name (this h) in
  let v := version (this h) in
  truthy v = true ->
  in_stages stages (lower (str v)) = true \/ isnumeric (str v) = true ->
  _get_or_create_model client h = (h1, Ok m) ->
  get_model_version n v (zen_store h1) = (st2, Raise KeyError) ->
  let h2 := {| zen_store := st2;
               calls := calls h1 ++ [GetModelVersion n v];
               this := this h1 |} in
  (_id (this h) = None -> id client stages h = (h2, Ok None)) /\
  (_number (this h) = None -> number client stages h = (h2, Ok None)) /\
  stage client stages h = (h2, Ok None).
Proof.
  cbn. intros Ht Hres E1 E2.
  pose proof (get_or_create_model_ok_this _ _ _ E1) as Hthis.
  assert (Ht1 : truthy (version (this h1)) = true) by by rewrite Hthis.
  pose proof (try_get_model_version_set h1 st2 (Raise KeyError) Ht1) as Etry.
  rewrite Hthis in Etry at 1 2. cbn [name version set_model_id] in Etry.
  specialize (Etry E2).
  destruct (get_or_create_model_version_reserved _ _ _ _ E1 Etry)
    as [why Eres].
  { cbn. rewrite Hthis. cbn.
    destruct Hres as [Hs | Hn]; [left; by split | by right]. }
  repeat split.
  - intros Hid. unfold id. run. rewrite Hid. unfold swallow_reserved. run.
    rewrite Eres. cbn. rewrite Hthis. cbn. by rewrite Hid.
  - intros Hnum. unfold number. run. rewrite Hnum.
    unfold swallow_reserved. run. rewrite Eres. cbn. rewrite Hthis. cbn.
    by rewrite Hnum.
  - unfold stage. run. rewrite Eres. cbn. by rewrite Hthis.
Qed.

(** C3. Resolution is lazy and cached.  A property whose private attribute
    is set returns it and leaves the heap as it is, request log included.
    A property whose attribute is [None] runs the resolution: [id] and
    [number] end in the heap [_get_or_create_model_version] ends in,
    [model_id] in that of [_get_or_create_model], and when the resolution
    returns they return what it resolved to.  So an access sends a request
    exactly when its attribute is [None].  After a successful
    [_get_or_create_model_version] all three attributes are set, and after
    a successful [_get_or_create_model] [_model_id] is: from then on any
    accesses return the cached values and send nothing. *)
Theorem properties_are_lazy_and_cached h :
  (forall p,
      is_set (attribute p (this h)) = true ->
      read client stages p h = (h, Ok (attribute p (this h)))) /\
  (forall p,
      calls (fst (read client stages p h)) <> calls h <->
      is_set (attribute p (this h)) = false) /\
  (_id (this h) = None ->
   fst (id client stages h)
     = fst (_get_or_create_model_version client stages h) /\
   forall h' mv,
     _get_or_create_model_version client stages h = (h', Ok mv) ->
     id client stages h = (h', Ok (Some (mvr_id mv)))) /\
  (_number (this h) = None ->
   fst (number client stages h)
     = fst (_get_or_create_model_version client stages h) /\
   forall h' mv,
     _get_or_create_model_version client stages h = (h', Ok mv) ->
     number client stages h = (h', Ok (Some (mvr_number mv)))) /\
  (_model_id (this h) = None ->
   fst (model_id client h) = fst (_get_or_create_model client h) /\
   forall h' m,
     _get_or_create_model client h = (h', Ok m) ->
     model_id client h = (h', Ok (Some (mr_id m)))) /\
  (forall h' mv,
      _get_or_create_model_version client stages h = (h', Ok mv) ->
      attribute Id (this h') = AnId (Some (mvr_id mv)) /\
      attribute ModelId (this h') = AnId (Some (mr_id (mvr_model mv))) /\
      attribute Number (this h') = ANumber (Some (mvr_number mv)) /\
      forall ps,
        read_all client stages ps h' =
          (h', Ok (List.map (fun p => attribute p (this h')) ps))) /\
  (forall h' m,
      _get_or_create_model client h = (h', Ok m) ->
      forall k,
        read_all client stages (replicate k ModelId) h' =
          (h', Ok (replicate k (AnId (Some (mr_id m)))))).
Proof.
  split; [| split; [| split; [| split; [| split; [| split]]]]].
  - intros p. apply read_cached.
  - intros p. split.
    + intros Hc. destruct (is_set _) eqn:E; [| done].
      by rewrite read_cached in Hc.
    + intros Hu. rewrite (read_heap h p).
      destruct p; cbn in Hu; apply bool_decide_eq_false in Hu.
      * rewrite id_unset by (by apply eq_None_not_Some).
        destruct (resolution_starts_with_get_model h) as [l ->].
        apply log_grows.
      * rewrite model_id_unset by (by apply eq_None_not_Some).
        destruct (get_or_create_model_starts h) as [l ->].
        apply log_grows.
      * rewrite number_unset by (by apply eq_None_not_Some).
        destruct (resolution_starts_with_get_model h) as [l ->].
        apply log_grows.
  - intros Hnone. split; [by apply id_unset |].
    intros h' mv E.
    destruct (get_or_create_model_version_ok _ _ _ E) as [self' Hs].
    unfold id. run. rewrite Hnone. unfold swallow_reserved. run.
    rewrite E. cbn. by rewrite Hs.
  - intros Hnone. split; [by apply number_unset |].
    intros h' mv E.
    destruct (get_or_create_model_version_ok _ _ _ E) as [self' Hs].
    unfold number. run. rewrite Hnone. unfold swallow_reserved. run.
    rewrite E. cbn. by rewrite Hs.
  - intros Hnone. split; [by apply model_id_unset |].
    intros h' m E.
    pose proof (get_or_create_model_ok_this _ _ _ E) as Hs.
    unfold model_id. run. rewrite Hnone, E. cbn. by rewrite Hs.
  - intros h' mv E.
    destruct (get_or_create_model_version_ok _ _ _ E) as [self' Hs].
    rewrite Hs. repeat split. intros ps. rewrite <- Hs.
    apply read_all_cached. intros p _. rewrite Hs. by destruct p.
  - intros h' m E k.
    pose proof (get_or_create_model_ok_this _ _ _ E) as Hs.
    rewrite read_all_cached.
    + f_equal. f_equal. rewrite Hs. induction k; cbn; by f_equal.
    + intros p [-> _]%list_elem_of_In%elem_of_replicate. by rewrite Hs.
Qed.

(** C10. [__hash__] is a function of [name] and [version] alone.  Two
    [ModelVersion]s with equal names and equal versions (equal as Python's
    [==] has it, which [version_eqb_refl] shows any version is to itself)
    are [__eq__] and have equal hashes; two with different names are not
    [__eq__]; in both cases nothing is sent to the store and neither object
    changes. *)
Theorem eq_and_hash_by_name_and_version h (other : ModelVersion) :
  (forall hash a b,
      name a = name b -> version a = version b ->
      __hash__ hash a = __hash__ hash b) /\
  (name (this h) = name other ->
   version_eqb (version (this h)) (version other) = true ->
   __eq__ client stages (h, other) = ((h, other), Ok true) /\
   forall hash, __hash__ hash (this h) = __hash__ hash other) /\
  (name (this h) <> name other ->
   __eq__ client stages (h, other) = ((h, other), Ok false)).
Proof.
  split; [| split].
  - intros hash a b Hn Hv. unfold __hash__, hash_key. by rewrite Hn, Hv.
  - intros Hn Hv. split.
    + unfold __eq__. run. rewrite Hn, String.eqb_refl. cbn. by rewrite Hv.
    + intros hash. unfold __hash__, hash_key.
      by rewrite Hn, (version_eqb_str _ _ Hv).
  - intros Hn. unfold __eq__. run.
    by apply String.eqb_neq in Hn as ->.
Qed.

End spec.

(** *** Runs on the in-memory store *)

Local Existing Instance ascii_only.

Lemma get_or_create_model_returns_named_model_witness :
  let at_ st := fresh_heap st (configured "churn" None) in
  snd (_get_or_create_model plain_client (at_ churn_store)) = Ok churn /\
  snd (_get_or_create_model plain_client (at_ empty_store)) = Ok churn /\
  snd (_get_or_create_model plain_client (at_ racing_store)) = Ok churn /\
  (forall h' m,
      _get_or_create_model plain_client (at_ racing_store) = (h', Ok m) ->
      _model_id (this h') = Some (mr_id m) /\ mr_name m = "churn").
Proof.
  intros at_. split; [| split; [| split; [| intros h' m H; split]]].
  - destruct (get_or_create_model_returns_named_model plain_client
                (at_ churn_store)) as (F & _).
    by rewrite (F churn_store churn eq_refl).
  - destruct (get_or_create_model_returns_named_model plain_client
                (at_ empty_store)) as (_ & C & _).
    by rewrite (C empty_store churn_store_without_versions
                  churn_store_without_versions (Ok churn) churn
                  eq_refl eq_refl (or_introl eq_refl) eq_refl).
  - destruct (get_or_create_model_returns_named_model plain_client
                (at_ racing_store)) as (_ & C & _).
    by rewrite (C racing_store churn_store_without_versions
                  churn_store_without_versions
                  (Raise EntityExistsError) churn
                  eq_refl eq_refl (or_intror eq_refl) eq_refl).
  - destruct (get_or_create_model_returns_named_model plain_client
                (at_ racing_store)) as (_ & _ & _ & S).
    by destruct (S h' m H) as (? & _).
  - destruct (get_or_create_model_returns_named_model plain_client
                (at_ racing_store)) as (_ & _ & _ & S).
    destruct (S h' m H) as (_ & _ & N). apply N.
    intros n' st st' m'. cbn. unfold mem_get_model, mem_find_model.
    destruct (List.find _ _) as [m0 |] eqn:E; [| done].
    intros [= <- <-]. apply List.find_some in E as [_ E].
    by apply String.eqb_eq.
Defined.

Lemma get_or_create_model_version_fetches_or_creates_witness :
  snd (_get_or_create_model_version plain_client stage_names
         (fresh_heap churn_store (configured "churn" (Some (VStr "baseline")))))
    = Ok churn_v1 /\
  exists h',
    _get_or_create_model_version plain_client stage_names
      (fresh_heap churn_store (configured "churn" None))
    = (h', Ok {| mvr_id := 1001%N; mvr_name := "2"; mvr_number := 2%Z;
                 mvr_model := churn; mvr_stage := None |}) /\
    version (this h') = Some (VStr "2") /\
    was_created_in_this_run (this h') = true.
Proof.
  split.
  - destruct (get_or_create_model_version_fetches_or_creates plain_client
                stage_names
                (fresh_heap churn_store
                   (configured "churn" (Some (VStr "baseline")))))
      as (F & _).
    destruct (F churn_store churn_store churn churn_v1
                eq_refl eq_refl eq_refl) as (-> & _).
    reflexivity.
  - destruct (get_or_create_model_version_fetches_or_creates plain_client
                stage_names (fresh_heap churn_store (configured "churn" None)))
      as (_ & C).
    edestruct C as (h' & E & _ & _ & Hv & Hw & _);
      [reflexivity | reflexivity | reflexivity | reflexivity |].
    exists h'. by repeat split.
Defined.

(** C2 as stated fails: resolving the unknown model ["churn"] at the
    reserved version ["staging"] raises [ReservedNameError] on the creation
    path, and the call has by then registered the model in the store. *)
Lemma reserved_version_store_changed :
  let h := fresh_heap empty_store (configured "churn" (Some (VStr "staging"))) in
  exists h1 h2 m,
    _get_or_create_model plain_client h = (h1, Ok m) /\
    try_get_model_version plain_client h1 = (h2, Raise KeyError) /\
    in_stages stage_names (lower (str (version (this h2)))) = true /\
    _get_or_create_model_version plain_client stage_names h =
      (h2, Raise (ReservedNameError MatchesStage "staging")) /\
    zen_store h = empty_store /\
    zen_store h2 = churn_store_without_versions /\
    zen_store h2 <> zen_store h.
Proof.
  cbn. eexists _, _, _.
  split; [reflexivity |]. split; [reflexivity |]. by repeat split.
Qed.

(** The guard [self.version and ...] of the stage check: with [version]
    [None], [str(version).lower()] is the stage name ["none"], and a model
    version is created all the same. *)
Example unset_version_is_not_reserved :
  let h := fresh_heap churn_store (configured "churn" None) in
  in_stages stage_names (lower (str (version (this h)))) = true /\
  is_ok (snd (_get_or_create_model_version plain_client stage_names h))
    = true.
Proof. by split. Qed.

Lemma reserved_version_is_not_created_witness :
  let h := fresh_heap churn_store
             (configured "churn" (Some (VStr "Production"))) in
  exists why h2,
    _get_or_create_model_version plain_client stage_names h =
      (h2, Raise (ReservedNameError why "Production")) /\
    List.filter is_create (calls h2) = [] /\
    zen_store h2 = churn_store.
Proof.
  intros h.
  edestruct (reserved_version_is_not_created plain_client stage_names h)
    as ([why E] & _ & N);
    [reflexivity | reflexivity | left; by split |].
  exists why. eexists. split; [exact E |].
  split; [| reflexivity]. by apply (N churn_store churn).
Defined.

Lemma reserved_version_reads_as_none_witness :
  let h := fresh_heap churn_store (configured "churn" (Some (VStr "7"))) in
  snd (id plain_client stage_names h) = Ok None /\
  snd (number plain_client stage_names h) = Ok None /\
  snd (stage plain_client stage_names h) = Ok None.
Proof.
  intros h.
  edestruct (reserved_version_reads_as_none plain_client stage_names h)
    as (I & N & S);
    [reflexivity | by right | reflexivity | reflexivity |].
  rewrite (I eq_refl), (N eq_refl), S. by repeat split.
Defined.

Lemma properties_are_lazy_and_cached_witness :
  let h := fresh_heap churn_store
             (configured "churn" (Some (VStage "staging"))) in
  exists h',
    id plain_client stage_names h = (h', Ok (Some 1000%N)) /\
    calls h' = [GetModel "churn";
                GetModelVersion "churn" (Some (VStage "staging"))] /\
    read_all plain_client stage_names [Id; Number; ModelId; Id] h' =
      (h', Ok [AnId (Some 1000%N); ANumber (Some 1%Z);
               AnId (Some 1%N); AnId (Some 1000%N)]).
Proof.
  intros h.
  assert (E : _get_or_create_model_version plain_client stage_names h =
              (fst (_get_or_create_model_version plain_client stage_names h),
               Ok churn_v1)) by (vm_compute; reflexivity).
  destruct (properties_are_lazy_and_cached plain_client stage_names h)
    as (_ & _ & I & _ & _ & R & _).
  destruct I as [_ I]; [reflexivity |].
  destruct (R _ _ E) as (_ & _ & _ & A).
  eexists. split; [exact (I _ _ E) |].
  split; [vm_compute; reflexivity |].
  rewrite A. vm_compute. reflexivity.
Defined.

Lemma eq_and_hash_by_name_and_version_witness :
  let a := fresh_heap empty_store
             (configured "churn" (Some (VStage "production"))) in
  let b := configured "churn" (Some (VStr "production")) in
  let c := configured "fraud" (Some (VStr "production")) in
  __eq__ plain_client stage_names (a, b) = ((a, b), Ok true) /\
  (forall hash, __hash__ hash (this a) = __hash__ hash b) /\
  __eq__ plain_client stage_names (a, c) = ((a, c), Ok false).
Proof.
  intros a b c.
  destruct (eq_and_hash_by_name_and_version plain_client stage_names a b)
    as (_ & E & _).
  destruct (E eq_refl eq_refl) as [Eq Hh].
  destruct (eq_and_hash_by_name_and_version plain_client stage_names a c)
    as (_ & _ & D).
  split; [exact Eq | split; [exact Hh | by apply D]].
Defined.

End ModelVersionSpec.

(** * Properties of the YAML and JSON helpers *)

Module YamlUtilsSpec.
Import yaml_utils.

(** ** Dictionaries *)

Section dict.

Context {Key : Type} `{Countable Key} {Val : Type}.

Implicit Types d other : gmap Key Val.

(** [update] lets [other] win and keeps the rest of [d]. *)
Lemma lookup_update d other k :
  update d other !! k =
    match other !! k with
    | Some v => Some v
    | None => d !! k
    end.
Proof.
  unfold update. revert k.
  apply (map_fold_weak_ind
           (fun r m => forall k, r !! k = match m !! k with
                                          | Some v => Some v
                                          | None => d !! k
                                          end)).
  - intros k. by rewrite lookup_empty.
  - intros i x m r Hi IH k. destruct (decide (i = k)) as [-> | Hne].
    + by rewrite !lookup_insert_eq.
    + rewrite !lookup_insert_ne by done. apply IH.
Qed.

Lemma update_union d other : update d other = other ∪ d.
Proof.
  apply map_eq. intros k. rewrite lookup_update, lookup_union.
  destruct (other !! k), (d !! k); done.
Qed.

End dict.

(** ** The in-memory file system obeys the laws *)

Global Instance MemFS_laws : FileIOLaws MemFS.
Proof.
  split.
  - intros p text fs fs'. cbn. unfold mem_write, mem_exists.
    destruct (mem_isdir p fs); [done |]. intros [= <-]. cbn.
    rewrite lookup_insert_eq. by rewrite bool_decide_eq_true_2.
  - intros p text fs fs'. cbn. unfold mem_write, mem_read.
    destruct (mem_isdir p fs); [done |]. intros [= <-]. cbn.
    by rewrite lookup_insert_eq.
  - intros p fs msg. cbn. unfold mem_exists, mem_read.
    destruct (files fs !! p); [done |].
    rewrite bool_decide_eq_false_2 by (by intros [? ?]). cbn.
    by intros ->.
Qed.

Section spec.

Context {FS : Type} `{!FileIO FS}.
Context {Key : Type} `{Countable Key} {Val Encoder : Type}.
Context `{!Serializers (Key:=Key) (Val:=Val) Encoder}.

Implicit Types (fs : FS) (contents : gmap Key Val).

Ltac run :=
  unfold bind, ret, raise, of_option, of_result, isdir, exists_,
    read_contents; cbn.

(** *** The directory check of the writers *)

Lemma write_yaml_checked file_path contents sort_keys fs :
  is_remote file_path = true \/
  fileio_isdir (Path_parent file_path) fs = true ->
  write_yaml file_path contents sort_keys fs =
    (text <- of_result (yaml_dump contents sort_keys) ;;
     write_file_contents_as_string file_path text) fs.
Proof.
  unfold write_yaml. intros HE. run.
  destruct (is_remote file_path); cbn; [done |].
  destruct HE as [E | E]; [done |]. by rewrite E.
Qed.

Lemma write_json_checked file_path contents encoder fs :
  is_remote file_path = true \/
  fileio_isdir (Path_parent file_path) fs = true ->
  write_json file_path contents encoder fs =
    (text <- of_result (json_dumps contents encoder) ;;
     write_file_contents_as_string file_path text) fs.
Proof.
  unfold write_json. intros HE. run.
  destruct (is_remote file_path); cbn; [done |].
  destruct HE as [E | E]; [done |]. by rewrite E.
Qed.

Lemma write_json_string_checked file_path text fs :
  is_remote file_path = true \/
  fileio_isdir (Path_parent file_path) fs = true ->
  write_json_string file_path text fs =
    write_file_contents_as_string file_path text fs.
Proof.
  unfold write_json_string. intros HE. run.
  destruct (is_remote file_path); cbn; [done |].
  destruct HE as [E | E]; [done |]. by rewrite E.
Qed.

Lemma write_yaml_unchecked file_path contents sort_keys fs :
  is_remote file_path = false ->
  fileio_isdir (Path_parent file_path) fs = false ->
  write_yaml file_path contents sort_keys fs =
    (fs, Raise (FileNotFoundError
                  ("Directory " ++ Path_parent file_path
                   ++ " does not exist."))).
Proof. intros R D. unfold write_yaml. run. rewrite R. cbn. by rewrite D. Qed.

Lemma write_json_unchecked file_path contents encoder fs :
  is_remote file_path = false ->
  fileio_isdir (Path_parent file_path) fs = false ->
  write_json file_path contents encoder fs =
    (fs, Raise (FileNotFoundError
                  ("Directory " ++ Path_parent file_path
                   ++ " does not exist."))).
Proof. intros R D. unfold write_json. run. rewrite R. cbn. by rewrite D. Qed.

Lemma write_json_string_unchecked file_path text fs :
  is_remote file_path = false ->
  fileio_isdir (Path_parent file_path) fs = false ->
  write_json_string file_path text fs =
    (fs, Raise (FileNotFoundError
                  ("Directory " ++ Path_parent file_path
                   ++ " does not exist."))).
Proof. intros R D. unfold write_json_string. run. rewrite R. cbn. by rewrite D. Qed.

(** *** The readers *)

Lemma read_yaml_existing file_path fs :
  fileio_exists file_path fs = true ->
  read_yaml file_path fs =
    (fs, match read_file_contents_as_string file_path fs with
         | Ok text =>
             match yaml_safe_load text with
             | Some v => Ok v
             | None => Raise YAMLError
             end
         | Raise e => Raise e
         end).
Proof.
  intros E. unfold read_yaml. run. rewrite E.
  destruct (read_file_contents_as_string _ _); [| done].
  by destruct (yaml_safe_load _).
Qed.

Lemma read_json_existing file_path fs :
  fileio_exists file_path fs = true ->
  read_json file_path fs =
    (fs, match read_file_contents_as_string file_path fs with
         | Ok text =>
             match json_loads text with
             | Some v => Ok v
             | None => Raise JSONDecodeError
             end
         | Raise e => Raise e
         end).
Proof.
  intros E. unfold read_json. run. rewrite E.
  destruct (read_file_contents_as_string _ _); [| done].
  by destruct (json_loads _).
Qed.

Lemma read_json_string_existing file_path fs :
  fileio_exists file_path fs = true ->
  read_json_string file_path fs =
    (fs, read_file_contents_as_string file_path fs).
Proof. intros E. unfold read_json_string. run. by rewrite E. Qed.

Lemma readers_missing file_path fs :
  fileio_exists file_path fs = false ->
  let msg := file_path ++ " does not exist." in
  read_yaml file_path fs = (fs, Raise (FileNotFoundError msg)) /\
  read_json file_path fs = (fs, Raise (FileNotFoundError msg)) /\
  read_json_string file_path fs = (fs, Raise (FileNotFoundError msg)).
Proof.
  intros E. unfold read_yaml, read_json, read_json_string. run.
  by rewrite E.
Qed.

(** *** The claims *)

(** C5, as the code has it.  On a local path whose parent directory
    exists, when the serializer returns a text and the write of it
    returns, reading the file back gives what the parser makes of the text
    the serializer wrote: [read_yaml] after [write_yaml] returns
    [yaml.safe_load] of the [yaml.dump] of the dictionary, [read_json]
    after [write_json] returns [json.loads] of its [json.dumps].  So the
    dictionary written is read back exactly when the parser inverts the
    serializer on it, which being representable or serializable does not
    make it do. *)
Theorem read_after_write_round_trip `{!FileIOLaws FS}
    file_path contents fs fs' text :
  is_remote file_path = false ->
  fileio_isdir (Path_parent file_path) fs = true ->
  write_file_contents_as_string file_path text fs = (fs', Ok tt) ->
  (forall sort_keys,
      yaml_dump contents sort_keys = Ok text ->
      let back :=
        (_ <- write_yaml file_path contents sort_keys ;;
         read_yaml file_path) fs in
      back = (fs', match yaml_safe_load text with
                   | Some v => Ok v
                   | None => Raise YAMLError
                   end) /\
      (back = (fs', Ok (PyDict contents)) <->
       yaml_safe_load text = Some (PyDict contents))) /\
  (forall encoder,
      json_dumps contents encoder = Ok text ->
      let back :=
        (_ <- write_json file_path contents encoder ;;
         read_json file_path) fs in
      back = (fs', match json_loads text with
                   | Some v => Ok v
                   | None => Raise JSONDecodeError
                   end) /\
      (back = (fs', Ok (PyDict contents)) <->
       json_loads text = Some (PyDict contents))).
Proof.
  intros R D W. split.
  - intros sort_keys Hd. cbn zeta.
    assert (Ew : write_yaml file_path contents sort_keys fs = (fs', Ok tt)).
    { rewrite write_yaml_checked by auto. run. by rewrite Hd. }
    rewrite (bind_ok _ _ _ _ _ Ew).
    rewrite read_yaml_existing by eauto using written_exists.
    rewrite (written_read _ _ _ _ W). split; [done |].
    destruct (yaml_safe_load text) as [v |]; split; congruence.
  - intros encoder Hd. cbn zeta.
    assert (Ew : write_json file_path contents encoder fs = (fs', Ok tt)).
    { rewrite write_json_checked by auto. run. by rewrite Hd. }
    rewrite (bind_ok _ _ _ _ _ Ew).
    rewrite read_json_existing by eauto using written_exists.
    rewrite (written_read _ _ _ _ W). split; [done |].
    destruct (json_loads text) as [v |]; split; congruence.
Qed.

(** C6. [read_yaml], [read_json] and [read_json_string] raise
    [FileNotFoundError] exactly when the file does not exist; when it
    exists they return its contents, parsed (raw for [read_json_string]).
    None of them changes the file system. *)
Theorem readers_raise_file_not_found_iff_missing `{!FileIOLaws FS}
    file_path fs :
  (raises_file_not_found (read_yaml file_path fs)
     <-> fileio_exists file_path fs = false) /\
  (raises_file_not_found (read_json file_path fs)
     <-> fileio_exists file_path fs = false) /\
  (raises_file_not_found (read_json_string file_path fs)
     <-> fileio_exists file_path fs = false) /\
  (fst (read_yaml file_path fs) = fs /\
   fst (read_json file_path fs) = fs /\
   fst (read_json_string file_path fs) = fs) /\
  (fileio_exists file_path fs = true ->
   forall text,
     read_file_contents_as_string file_path fs = Ok text ->
     read_json_string file_path fs = (fs, Ok text) /\
     (forall v, yaml_safe_load text = Some v ->
                read_yaml file_path fs = (fs, Ok v)) /\
     (forall v, json_loads text = Some v ->
                read_json file_path fs = (fs, Ok v))).
Proof.
  unfold raises_file_not_found. destruct (fileio_exists file_path fs) eqn:E.
  - rewrite read_yaml_existing, read_json_existing,
      read_json_string_existing by done. cbn.
    pose proof (fun msg => existing_not_missing file_path fs msg E) as NM.
    split; [| split; [| split; [| split; [done |]]]].
    + split; [| done]. intros [msg Hm].
      destruct (read_file_contents_as_string _ _) as [text | e];
        [by destruct (yaml_safe_load _) |
         injection Hm as ->; by destruct (NM msg)].
    + split; [| done]. intros [msg Hm].
      destruct (read_file_contents_as_string _ _) as [text | e];
        [by destruct (json_loads _) |
         injection Hm as ->; by destruct (NM msg)].
    + split; [| done]. intros [msg Hm]. destruct (NM msg Hm).
    + intros _ text ->. split; [done |]. split; by intros v ->.
  - destruct (readers_missing _ _ E) as (-> & -> & ->). cbn.
    split; [| split; [| split; [| split; [done | done]]]];
      (split; [done | by eexists]).
Qed.

(** C7. On a local path whose parent directory does not exist,
    [write_yaml], [write_json] and [write_json_string] raise
    [FileNotFoundError] and leave the file system as it was.  On a remote
    path the directory is not looked at: the text is handed to
    [write_file_contents_as_string], whose outcome is the outcome. *)
Theorem writers_check_local_directory file_path fs :
  (is_remote file_path = false ->
   fileio_isdir (Path_parent file_path) fs = false ->
   let err : Result unit :=
     Raise (FileNotFoundError
              ("Directory " ++ Path_parent file_path ++ " does not exist."))
   in
   (forall contents sort_keys,
       write_yaml file_path contents sort_keys fs = (fs, err)) /\
   (forall contents encoder,
       write_json file_path contents encoder fs = (fs, err)) /\
   (forall text, write_json_string file_path text fs = (fs, err))) /\
  (is_remote file_path = true ->
   (forall contents sort_keys text,
       yaml_dump contents sort_keys = Ok text ->
       write_yaml file_path contents sort_keys fs =
         write_file_contents_as_string file_path text fs) /\
   (forall contents encoder text,
       json_dumps contents encoder = Ok text ->
       write_json file_path contents encoder fs =
         write_file_contents_as_string file_path text fs) /\
   (forall text,
       write_json_string file_path text fs =
         write_file_contents_as_string file_path text fs)).
Proof.
  split.
  - intros R D. cbn. split; [| split]; intros.
    + by apply write_yaml_unchecked.
    + by apply write_json_unchecked.
    + by apply write_json_string_unchecked.
  - intros R. split; [| split].
    + intros contents sort_keys text Hd.
      rewrite write_yaml_checked by auto. run. by rewrite Hd.
    + intros contents encoder text Hd.
      rewrite write_json_checked by auto. run. by rewrite Hd.
    + intros text. apply write_json_string_checked. auto.
Qed.

(** C8. On an existing YAML file that parses to a mapping (or to [None],
    taken as the empty mapping), whose directory is there,
    [append_yaml] writes back the dump of the old mapping updated with
    [contents]: every key of [contents] has the value [contents] gives it,
    every other key of the old mapping keeps its value. *)
Theorem append_yaml_merges file_path contents fs text loaded :
  fileio_exists file_path fs = true ->
  read_file_contents_as_string file_path fs = Ok text ->
  yaml_safe_load text = Some loaded ->
  is_remote file_path = true \/
  fileio_isdir (Path_parent file_path) fs = true ->
  forall old,
    loaded = PyDict old \/ (loaded = PyNone /\ old = ∅) ->
    exists merged : gmap Key Val,
      (forall k v, contents !! k = Some v -> merged !! k = Some v) /\
      (forall k, contents !! k = None -> merged !! k = old !! k) /\
      merged = contents ∪ old /\
      forall new_text,
        yaml_dump merged true = Ok new_text ->
        append_yaml file_path contents fs =
          write_file_contents_as_string file_path new_text fs.
Proof.
  intros E Hr Hl Hdir old Hold. exists (update old contents).
  split; [| split; [| split]].
  - intros k v Hk. by rewrite lookup_update, Hk.
  - intros k Hk. by rewrite lookup_update, Hk.
  - apply update_union.
  - intros new_text Hd. unfold append_yaml.
    assert (Eread : read_yaml file_path fs = (fs, Ok loaded)).
    { rewrite read_yaml_existing by done. by rewrite Hr, Hl. }
    rewrite (bind_ok _ _ _ _ _ Eread).
    assert (Eor : or_empty_dict loaded fs = (fs, Ok old)).
    { destruct Hold as [-> | [-> ->]]; cbn; [| done].
      by destruct (decide (old = ∅)) as [-> |]. }
    rewrite (bind_ok _ _ _ _ _ Eor). run.
    destruct (is_remote file_path); cbn.
    + by rewrite Hd.
    + destruct Hdir as [? | ->]; [done |]. cbn. by rewrite Hd.
Qed.

End spec.

(** *** Runs on the in-memory file system *)

Lemma read_after_write_round_trip_witness :
  (_ <- write_yaml "/tmp/run.yaml" new_entries true ;;
   read_yaml "/tmp/run.yaml") tmp_fs
  = (tmp_fs_written, Ok (PyDict new_entries)) /\
  (_ <- write_json "/tmp/run.yaml" new_entries None ;;
   read_json "/tmp/run.yaml") tmp_fs
  = (tmp_fs_written, Ok (PyDict new_entries)).
Proof.
  destruct (read_after_write_round_trip (FS:=MemFS) (Encoder:=unit)
              "/tmp/run.yaml" new_entries tmp_fs tmp_fs_written
              (flat_dump new_entries))
    as [Y J]; [reflexivity | reflexivity | reflexivity |].
  split.
  - destruct (Y true) as [_ [_ Back]]; [reflexivity |].
    apply Back. vm_compute. reflexivity.
  - destruct (J None) as [_ [_ Back]]; [reflexivity |].
    apply Back. vm_compute. reflexivity.
Defined.

(** C5 as stated fails: JSON has no tuples and no UUIDs.  A dictionary
    with a tuple in it is serializable, and is read back with a list in
    its place; one with a UUID in it is serializable with [UUIDEncoder],
    and is read back with a string in its place.  Neither is equal to the
    dictionary written. *)
Lemma serializable_dict_is_read_back_changed :
  let path := "/tmp/run.json" in
  let as_list : gmap string PyVal := {[ "a" := PList [PInt 1; PInt 2] ]} in
  let as_text : gmap string PyVal :=
    {[ "id" := PStr "000000000000000000000000000003e8" ]} in
  is_remote path = false /\
  fileio_isdir (Path_parent path) tmp_fs = true /\
  (is_ok (json_dumps (Serializers := json_serializers) pair_entry None)
     = true /\
   snd ((_ <- write_json (Serializers0 := json_serializers)
                path pair_entry None ;;
         read_json (Serializers0 := json_serializers) path) tmp_fs)
     = Ok (PyDict as_list) /\
   as_list <> pair_entry) /\
  (is_ok (json_dumps (Serializers := json_serializers)
            id_entry (Some UUIDEncoder)) = true /\
   snd ((_ <- write_json (Serializers0 := json_serializers)
                path id_entry (Some UUIDEncoder) ;;
         read_json (Serializers0 := json_serializers) path) tmp_fs)
     = Ok (PyDict as_text) /\
   as_text <> id_entry).
Proof.
  cbn zeta. split; [reflexivity |]. split; [reflexivity |].
  split; (split; [vm_compute; reflexivity |]);
    (split; [vm_compute; reflexivity |]).
  - intros E. apply (f_equal (fun d => d !! "a")) in E.
    vm_compute in E. discriminate.
  - intros E. apply (f_equal (fun d => d !! "id")) in E.
    vm_compute in E. discriminate.
Qed.

Lemma readers_raise_file_not_found_iff_missing_witness :
  read_yaml (Key:=string) (Val:=string) "/tmp/conf.yaml" tmp_fs
    = (tmp_fs, Ok (PyDict {[ "lr" := "0.1"; "seed" := "3" ]})) /\
  read_json_string "/tmp/conf.yaml" tmp_fs
    = (tmp_fs, Ok ("lr: 0.1" ++ String "010" "seed: 3" ++ String "010" "")) /\
  raises_file_not_found
    (read_yaml (Key:=string) (Val:=string) "/tmp/none.yaml" tmp_fs).
Proof.
  destruct (readers_raise_file_not_found_iff_missing
              (FS:=MemFS) (Key:=string) (Val:=string) (Encoder:=unit)
              "/tmp/conf.yaml" tmp_fs) as (_ & _ & _ & _ & R).
  assert (Ex : fileio_exists "/tmp/conf.yaml" tmp_fs = true) by reflexivity.
  assert (Er : read_file_contents_as_string "/tmp/conf.yaml" tmp_fs =
               Ok ("lr: 0.1" ++ String "010" "seed: 3" ++ String "010" ""))
    by reflexivity.
  destruct (R Ex _ Er) as (S & Y & _).
  destruct (readers_raise_file_not_found_iff_missing
              (FS:=MemFS) (Key:=string) (Val:=string) (Encoder:=unit)
              "/tmp/none.yaml" tmp_fs) as ([_ M] & _).
  split; [| split].
  - apply Y. vm_compute. reflexivity.
  - exact S.
  - apply M. reflexivity.
Defined.

Lemma writers_check_local_directory_witness :
  write_yaml "/data/run.yaml" new_entries true tmp_fs
    = (tmp_fs,
       Raise (FileNotFoundError "Directory /data does not exist.")) /\
  write_json_string "/data/run.json" "{}" tmp_fs
    = (tmp_fs,
       Raise (FileNotFoundError "Directory /data does not exist.")) /\
  write_yaml "s3://runs/run.yaml" new_entries true tmp_fs
    = mem_write "s3://runs/run.yaml" (flat_dump new_entries) tmp_fs.
Proof.
  destruct (writers_check_local_directory
              (FS:=MemFS) (Key:=string) (Val:=string) (Encoder:=unit)
              "/data/run.yaml" tmp_fs) as [L _].
  destruct L as (Y & _ & _); [reflexivity | reflexivity |].
  destruct (writers_check_local_directory
              (FS:=MemFS) (Key:=string) (Val:=string) (Encoder:=unit)
              "/data/run.json" tmp_fs) as [L' _].
  destruct L' as (_ & _ & S); [reflexivity | reflexivity |].
  destruct (writers_check_local_directory
              (FS:=MemFS) (Key:=string) (Val:=string) (Encoder:=unit)
              "s3://runs/run.yaml" tmp_fs) as [_ R].
  destruct R as (RY & _ & _); [reflexivity |].
  split; [| split].
  - apply Y.
  - apply S.
  - by apply RY.
Defined.

Lemma append_yaml_merges_witness :
  append_yaml "/tmp/conf.yaml" new_entries tmp_fs
  = mem_write "/tmp/conf.yaml"
      (flat_dump {[ "lr" := "0.1"; "seed" := "4"; "epochs" := "10" ]})
      tmp_fs.
Proof.
  destruct (append_yaml_merges (FS:=MemFS) (Encoder:=unit)
              "/tmp/conf.yaml" new_entries tmp_fs
              ("lr: 0.1" ++ String "010" "seed: 3" ++ String "010" "")
              (PyDict {[ "lr" := "0.1"; "seed" := "3" ]}))
    with (old := ({[ "lr" := "0.1"; "seed" := "3" ]} : gmap string string))
    as (merged & _ & _ & -> & A);
    [reflexivity | reflexivity | vm_compute; reflexivity
    | right; reflexivity | left; reflexivity |].
  apply A. vm_compute. reflexivity.
Defined.

End YamlUtilsSpec.

(** * Further properties of [ModelVersion] *)

Module ModelVersionMore.
Import model_version ModelVersionSpec.
Local Open Scope list_scope.

Section more.

Context {Store : Type} `{!ZenStore Store} `{!UnicodeData}.
Variable client : Client.
Variable stages : list string.

Local Abbreviation Heap := (model_version.Heap Store).

Implicit Types (h : Heap) (m : ModelResponseModel)
  (mv : ModelVersionResponseModel) (self : ModelVersion).

Local Arguments _get_or_create_model : simpl never.
Local Arguments adopt_version_of_this_run : simpl never.
Local Arguments _get_model_version : simpl never.
Local Arguments try_get_model_version : simpl never.
Local Arguments isnumeric : simpl never.
Local Arguments lower : simpl never.
Local Arguments in_stages : simpl never.
Local Arguments _get_or_create_model_version : simpl never.

Ltac run :=
  unfold bind, try_except, try_finally, ret, raise, modify, get,
    self_, on_this, request; cbn.

(** *** Failures of the store while the model is resolved *)

(** X1. [_get_or_create_model] passes on what it cannot handle.  Any
    error of the first [get_model] but [KeyError] is raised at once.  An
    error of [create_model] other than [EntityExistsError] is raised too,
    but only after the [finally] block has asked for the model again, and
    an error of that last [get_model] takes its place.  When the creation
    went through (or met [EntityExistsError]) and the last [get_model]
    fails, its error is raised.  In none of these cases is [_model_id]
    set. *)
Theorem get_or_create_model_errors h :
  let n := name (this h) in
  let rq := model_request_of client (this h) in
  let asked_thrice st :=
    {| zen_store := st;
       calls := calls h ++ [GetModel n; CreateModel rq; GetModel n];
       this := this h |} in
  (forall st1 e,
      get_model n (zen_store h) = (st1, Raise e) ->
      e <> KeyError ->
      _get_or_create_model client h =
        ({| zen_store := st1; calls := calls h ++ [GetModel n];
            this := this h |}, Raise e)) /\
  (forall st1 st2 st3 e r,
      get_model n (zen_store h) = (st1, Raise KeyError) ->
      create_model rq st1 = (st2, Raise e) ->
      e <> EntityExistsError ->
      get_model n st2 = (st3, r) ->
      _get_or_create_model client h =
        (asked_thrice st3,
         Raise (match r with Ok _ => e | Raise e' => e' end))) /\
  (forall st1 st2 st3 r e,
      get_model n (zen_store h) = (st1, Raise KeyError) ->
      create_model rq st1 = (st2, r) ->
      is_ok r = true \/ r = Raise EntityExistsError ->
      get_model n st2 = (st3, Raise e) ->
      _get_or_create_model client h = (asked_thrice st3, Raise e)).
Proof.
  cbn. split; [| split].
  - intros st1 e E Hne. unfold _get_or_create_model. run. rewrite E. cbn.
    destruct e; try done.
  - intros st1 st2 st3 e r E1 E2 Hne E3. unfold _get_or_create_model. run.
    rewrite E1. cbn. rewrite E2. cbn.
    destruct e; try done; cbn; rewrite E3; cbn; rewrite <- !app_assoc;
      by destruct r.
  - intros st1 st2 st3 r e E1 E2 Hr E3. unfold _get_or_create_model. run.
    rewrite E1. cbn. rewrite E2. cbn.
    destruct Hr as [Hr | ->].
    + destruct r as [m' | e']; [| done]. cbn. rewrite E3. cbn.
      by rewrite <- !app_assoc.
    + cbn. rewrite E3. cbn. by rewrite <- !app_assoc.
Qed.

(** *** The requests of a resolution *)

(** X2. A resolution starts with a [get_model] and sends at most four more
    requests, among them at most two creations and at most one
    [create_model_version].  A model it creates is requested with the
    metadata of [self]; a model version it creates is requested under the
    [version] and [description] that [self] had when the method was
    called. *)
Theorem resolution_sends_few_requests h :
  let h' := fst (_get_or_create_model_version client stages h) in
  exists l,
    calls h' = calls h ++ GetModel (name (this h)) :: l /\
    length l <= 4 /\
    length (List.filter is_create l) <= 2 /\
    length (List.filter is_create_model_version l) <= 1 /\
    Forall (fun c =>
              match c with
              | CreateModel rq => rq = model_request_of client (this h)
              | CreateModelVersion rq =>
                  vrq_name rq = version (this h) /\
                  vrq_description rq = description (this h)
              | _ => True
              end) l.
Proof.
  cbn. pose proof (get_or_create_model_shape client h) as Hm. cbn in Hm.
  destruct (_get_or_create_model client h) as [h1 [m | e]] eqn:E1;
    cbn in Hm.
  - destruct (after_the_model client stages _ _ _ E1) as ((l & -> & Hl) & _).
    destruct Hm as [-> | ->];
      destruct Hl as [-> | [(n & v & ->) | [-> | (n & v & ->)]]];
      rewrite <- app_assoc; cbn; eexists; (split; [reflexivity |]);
      cbn; repeat split; try lia; repeat constructor.
  - rewrite (model_failed client stages _ _ _ E1). cbn.
    destruct Hm as [-> | ->]; eexists; (split; [reflexivity |]);
      cbn; repeat split; try lia; repeat constructor.
Qed.

(** X3. Whatever a resolution does and however it ends, it leaves the
    configured name and metadata of [self] alone, and it never takes back
    [was_created_in_this_run]. *)
Theorem resolution_keeps_the_configuration h :
  let self := this h in
  let self' := this (fst (_get_or_create_model_version client stages h)) in
  name self' = name self /\
  license self' = license self /\
  description self' = description self /\
  audience self' = audience self /\
  use_cases self' = use_cases self /\
  limitations self' = limitations self /\
  trade_offs self' = trade_offs self /\
  ethics self' = ethics self /\
  tags self' = tags self /\
  save_models_to_registry self' = save_models_to_registry self /\
  (was_created_in_this_run self = true ->
   was_created_in_this_run self' = true).
Proof.
  cbn.
  destruct (_get_or_create_model client h) as [h1 [m | e]] eqn:E1.
  - destruct (after_the_model client stages _ _ _ E1) as (_ & Hrq & Hs & Hw).
    cbn in Hrq, Hs, Hw. injection Hrq as -> -> -> -> -> -> -> -> ->.
    by repeat split.
  - rewrite (model_failed client stages _ _ _ E1). cbn.
    pose proof (get_or_create_model_this _ _ _ _ E1) as ->.
    by repeat split.
Qed.

(** *** The [stage] property *)

(** X4. [stage] is not cached: it runs a resolution each time, so every
    access starts with a [get_model] request, also on an object whose
    attributes are all set. *)
Theorem stage_is_never_cached h :
  fst (stage client stages h)
    = fst (_get_or_create_model_version client stages h) /\
  exists l,
    calls (fst (stage client stages h))
    = calls h ++ GetModel (name (this h)) :: l.
Proof.
  assert (E : fst (stage client stages h)
              = fst (_get_or_create_model_version client stages h)).
  { unfold stage. run.
    destruct (_get_or_create_model_version client stages h)
      as [h' [mv | e]]; cbn.
    - destruct (mvr_stage mv) as [s |]; [| done].
      destruct (negb _); [| done]. unfold ModelStages. run.
      by destruct (in_stages _ _).
    - by destruct e. }
  split; [exact E |]. rewrite E. apply resolution_starts_with_get_model.
Qed.

(** *** Adopting a version created in this run *)

Lemma first_step_version_found self before k adopted after :
  existsb (fun step => created_here_for self (snd step)) before = false ->
  created_here_for self (Some adopted) = true ->
  first_step_version self (before ++ (k, Some adopted) :: after)
    = Some adopted.
Proof.
  intros Hb Ha. induction before as [| [k' mv'] before IH]; cbn in *.
  - by rewrite Ha.
  - apply orb_false_iff in Hb as [-> Hb]. auto.
Qed.

Lemma adopt_found h context adopted :
  truthy (version (this h)) = false ->
  step_context client = Some context ->
  adopted_from (this h) context adopted ->
  adopt_version_of_this_run client h =
    ({| zen_store := zen_store h; calls := calls h;
        this := set_version (version adopted) (this h) |}, Ok tt).
Proof.
  intros Ht Hc Ha. unfold adopt_version_of_this_run. run.
  rewrite Ht, Hc. cbn.
  destruct Ha as [[-> ->] | (-> & before & k & after & -> & Hb & Hq)].
  - done.
  - by rewrite (first_step_version_found _ _ _ _ _ Hb Hq).
Qed.

(** X5. With [version] unset and, in the step context, a model version of
    the same model name created in this run (on the pipeline, else on the
    first step that has one), [self] takes over that version and the
    method fetches it: nothing is created, and [self] is not marked as
    created in this run. *)
Theorem unset_version_adopts_version_of_this_run
    h context adopted h1 st2 m mv :
  truthy (version (this h)) = false ->
  step_context client = Some context ->
  adopted_from (this h) context adopted ->
  truthy (version adopted) = true ->
  _get_or_create_model client h = (h1, Ok m) ->
  get_model_version (name (this h)) (version adopted) (zen_store h1)
    = (st2, Ok mv) ->
  let h' :=
    {| zen_store := st2;
       calls := calls h1 ++
                [GetModelVersion (name (this h)) (version adopted)];
       this := resolved mv (set_version (version adopted) (this h1)) |} in
  _get_or_create_model_version client stages h = (h', Ok mv) /\
  version (this h') = version adopted /\
  was_created_in_this_run (this h') = was_created_in_this_run (this h).
Proof.
  intros Ht Hc Ha Hv E1 E2. cbn.
  pose proof (get_or_create_model_ok_this _ _ _ _ E1) as Hthis.
  split; [| by rewrite Hthis].
  unfold _get_or_create_model_version. rewrite (bind_ok _ _ _ _ _ E1).
  destruct h1 as [st1 log1 self1]; cbn in *; subst self1.
  run. unfold try_get_model_version.
  rewrite (bind_ok _ _ _ _ _
             (adopt_found
                {| zen_store := st1; calls := log1;
                   this := set_model_id (mr_id m) (this h) |}
                context adopted Ht Hc Ha)).
  run. rewrite Hv. unfold _get_model_version. run. by rewrite E2.
Qed.

(** *** Creating a version under a name *)

(** X6. When [version] is set to a name the store does not know, which is
    neither a stage name nor numeric, a model version is requested under
    that name: [version] becomes the name of what the store created and
    [was_created_in_this_run] becomes [True]. *)
Theorem unknown_name_is_created h h1 st2 st3 m mv :
  let n := name (this h) in
  let v := version (this h) in
  let rq := model_version_request_of client (this h) m in
  truthy v = true ->
  in_stages stages (lower (str v)) = false ->
  isnumeric (str v) = false ->
  _get_or_create_model client h = (h1, Ok m) ->
  get_model_version n v (zen_store h1) = (st2, Raise KeyError) ->
  create_model_version rq st2 = (st3, Ok mv) ->
  vrq_name rq = v /\
  _get_or_create_model_version client stages h =
    ({| zen_store := st3;
        calls := calls h1 ++ [GetModelVersion n v; CreateModelVersion rq];
        this :=
          resolved mv
            (set_was_created_in_this_run true
               (set_version (Some (VStr (mvr_name mv))) (this h1))) |},
     Ok mv).
Proof.
  cbn. intros Ht Hs Hn E1 E2 E3. split; [done |].
  pose proof (get_or_create_model_ok_this _ _ _ _ E1) as Hthis.
  unfold _get_or_create_model_version. rewrite (bind_ok _ _ _ _ _ E1).
  destruct h1 as [st1 log1 self1]; cbn in *; subst self1.
  run.
  rewrite (try_get_model_version_set _ _ st2 (Raise KeyError)) by done.
  cbn. rewrite Ht, Hs, Hn. cbn. run.
  change (model_version_request_of client (set_model_id _ (this h)) m)
    with (model_version_request_of client (this h) m).
  rewrite E3. cbn. by rewrite <- app_assoc.
Qed.

(** X7. Failures of the store pass through.  An error of the fetch other
    than [KeyError] is raised as it is and no creation is tried; and when
    the creation itself fails, its error is raised and [self] is left as
    the [try:] block left it: not marked as created. *)
Theorem resolution_errors_pass_through h h1 h2 m :
  _get_or_create_model client h = (h1, Ok m) ->
  (forall e,
      try_get_model_version client h1 = (h2, Raise e) ->
      e <> KeyError ->
      _get_or_create_model_version client stages h = (h2, Raise e)) /\
  (forall st3 e,
      try_get_model_version client h1 = (h2, Raise KeyError) ->
      truthy (version (this h2))
        && in_stages stages (lower (str (version (this h2)))) = false ->
      isnumeric (str (version (this h2))) = false ->
      create_model_version (model_version_request_of client (this h) m)
        (zen_store h2) = (st3, Raise e) ->
      _get_or_create_model_version client stages h =
        ({| zen_store := st3;
            calls := calls h2 ++
                     [CreateModelVersion
                        (model_version_request_of client (this h) m)];
            this := this h2 |}, Raise e)).
Proof.
  intros E1.
  pose proof (get_or_create_model_ok_this _ _ _ _ E1) as Hthis.
  split.
  - intros e E2 Hne. unfold _get_or_create_model_version.
    rewrite (bind_ok _ _ _ _ _ E1). run. rewrite E2. cbn.
    by destruct e.
  - intros st3 e E2 Hs Hn E3. unfold _get_or_create_model_version.
    rewrite (bind_ok _ _ _ _ _ E1). run. rewrite E2. cbn.
    rewrite Hs, Hn. run.
    replace (model_version_request_of client (this h1) m)
      with (model_version_request_of client (this h) m)
      by by rewrite Hthis.
    by rewrite E3.
Qed.

(** *** The properties, when they do resolve *)

(** X8. The first access of [id] or [number] runs the resolution and
    returns the id or number of the model version it resolved to; the
    first access of [model_id] returns the id of the model. *)
Theorem first_access_resolves h :
  (forall h' mv,
      _get_or_create_model_version client stages h = (h', Ok mv) ->
      (_id (this h) = None ->
       id client stages h = (h', Ok (Some (mvr_id mv)))) /\
      (_number (this h) = None ->
       number client stages h = (h', Ok (Some (mvr_number mv))))) /\
  (forall h' m,
      _get_or_create_model client h = (h', Ok m) ->
      _model_id (this h) = None ->
      model_id client h = (h', Ok (Some (mr_id m)))).
Proof.
  split.
  - intros h' mv E.
    destruct (get_or_create_model_version_ok _ _ _ _ _ E) as [self' Hs].
    split; intros Hnone.
    + unfold id. run. rewrite Hnone. unfold swallow_reserved. run.
      rewrite E. cbn. by rewrite Hs.
    + unfold number. run. rewrite Hnone. unfold swallow_reserved. run.
      rewrite E. cbn. by rewrite Hs.
  - intros h' m E Hnone.
    pose proof (get_or_create_model_ok_this _ _ _ _ E) as Hs.
    unfold model_id. run. rewrite Hnone, E. cbn. by rewrite Hs.
Qed.

(** X9. [id], [number] and [stage] swallow [ReservedNameError] only: any
    other exception of the resolution is raised to the caller.
    [model_id] swallows nothing: whatever [_get_or_create_model] raises,
    a [ReservedNameError] included, [model_id] raises. *)
Theorem properties_raise_other_errors h h' e :
  ((forall why s, e <> ReservedNameError why s) ->
   _get_or_create_model_version client stages h = (h', Raise e) ->
   (_id (this h) = None -> id client stages h = (h', Raise e)) /\
   (_number (this h) = None -> number client stages h = (h', Raise e)) /\
   stage client stages h = (h', Raise e)) /\
  (_get_or_create_model client h = (h', Raise e) ->
   _model_id (this h) = None ->
   model_id client h = (h', Raise e)).
Proof.
  split.
  - intros Hne E. repeat split.
    + intros Hnone. unfold id. run. rewrite Hnone.
      unfold swallow_reserved. run. rewrite E. cbn.
      destruct e; try done. by destruct (Hne why version_str).
    + intros Hnone. unfold number. run. rewrite Hnone.
      unfold swallow_reserved. run. rewrite E. cbn.
      destruct e; try done. by destruct (Hne why version_str).
    + unfold stage. run. rewrite E. cbn.
      destruct e; try done. by destruct (Hne why version_str).
  - intros E Hnone. unfold model_id. run. by rewrite Hnone, E.
Qed.

(** X10. What [stage] returns once the model version is resolved: its
    stage when that is one of the stage names, [None] when it has none (or
    an empty one), and a [ValueError] when the store reports a stage that
    is no stage name. *)
Theorem stage_of_resolved_version h h' mv :
  _get_or_create_model_version client stages h = (h', Ok mv) ->
  (mvr_stage mv = None \/ mvr_stage mv = Some "" ->
   stage client stages h = (h', Ok None)) /\
  (forall s, mvr_stage mv = Some s -> s <> "" -> s ∈ stages ->
             stage client stages h = (h', Ok (Some s))) /\
  (forall s, mvr_stage mv = Some s -> s <> "" -> s ∉ stages ->
             stage client stages h = (h', Raise ValueError)).
Proof.
  intros E. split; [| split].
  - intros [Hs | Hs]; unfold stage; run; by rewrite E, Hs.
  - intros s Hs Hne Hin. unfold stage. run. rewrite E, Hs. cbn.
    apply String.eqb_neq in Hne as ->. cbn. unfold ModelStages, in_stages.
    run. by rewrite bool_decide_eq_true_2.
  - intros s Hs Hne Hin. unfold stage. run. rewrite E, Hs. cbn.
    apply String.eqb_neq in Hne as ->. cbn. unfold ModelStages, in_stages.
    run. by rewrite bool_decide_eq_false_2.
Qed.

(** *** Equality decided by the store *)

(** X11. Two [ModelVersion]s of one name whose versions differ are
    compared by what they resolve to: [__eq__] resolves [self], then
    [other], and is [True] exactly when both are the same model version of
    the store.  Both objects come out resolved.  When [self] cannot be
    resolved the exception is raised, a [ReservedNameError] too, and
    [other] is not looked at. *)
Theorem eq_by_resolved_id h (other : ModelVersion) :
  name (this h) = name other ->
  version_eqb (version (this h)) (version other) = false ->
  (forall h1 h2 self_mv other_mv,
      _get_or_create_model_version client stages h = (h1, Ok self_mv) ->
      _get_or_create_model_version client stages
        {| zen_store := zen_store h1; calls := calls h1; this := other |}
        = (h2, Ok other_mv) ->
      __eq__ client stages (h, other) =
        (({| zen_store := zen_store h2; calls := calls h2;
             this := this h1 |}, this h2),
         Ok (bool_decide (mvr_id self_mv = mvr_id other_mv)))) /\
  (forall h1 e,
      _get_or_create_model_version client stages h = (h1, Raise e) ->
      __eq__ client stages (h, other) = ((h1, other), Raise e)).
Proof.
  intros Hn Hv. split.
  - intros h1 h2 self_mv other_mv E1 E2. unfold __eq__. run.
    rewrite Hn, String.eqb_refl, Hv. cbn. unfold for_self, for_other.
    rewrite E1. cbn. rewrite E2. cbn. do 2 f_equal.
    destruct (N.eqb_spec (mvr_id self_mv) (mvr_id other_mv)).
    + by rewrite bool_decide_eq_true_2.
    + by rewrite bool_decide_eq_false_2.
  - intros h1 e E1. unfold __eq__. run.
    rewrite Hn, String.eqb_refl, Hv. cbn. unfold for_self.
    by rewrite E1.
Qed.

(** *** Validation and creation disagree on the case of letters *)

(** X12. [_root_validator] compares [version] with the stage values as
    they are spelled, the creation path compares it in lower case.  So a
    stage name written with capitals gets no notice when the object is
    built, and is refused with [ReservedNameError] when the store has no
    such version. *)
Theorem capitalised_stage_is_refused_unannounced h h1 st2 m s values :
  version (this h) = Some (VStr s) ->
  values !! "version" = Some (AStr s) ->
  s ∉ stages ->
  lower s ∈ stages ->
  isnumeric s = false ->
  _get_or_create_model client h = (h1, Ok m) ->
  get_model_version (name (this h)) (Some (VStr s)) (zen_store h1)
    = (st2, Raise KeyError) ->
  fst (_root_validator stages values) = [] /\
  _get_or_create_model_version client stages h =
    ({| zen_store := st2;
        calls := calls h1 ++ [GetModelVersion (name (this h)) (Some (VStr s))];
        this := this h1 |},
     Raise (ReservedNameError MatchesStage s)).
Proof.
  intros Hv Hval Hns Hls Hnum E1 E2. split.
  - unfold _root_validator. rewrite Hval. cbn.
    rewrite bool_decide_eq_false_2 by done. cbn.
    change (isnumeric s && _) with (isnumeric s && negb (truthy_any
      (default (ABool false)
         (values !! "suppress_class_validation_warnings")))).
    by rewrite Hnum.
  - assert (Ht : truthy (Some (VStr s)) = true).
    { cbn. destruct s; [| done]. done. }
    pose proof (get_or_create_model_ok_this _ _ _ _ E1) as Hthis.
    unfold _get_or_create_model_version. rewrite (bind_ok _ _ _ _ _ E1).
    destruct h1 as [st1 log1 self1]; cbn in *; subst self1.
    run.
    rewrite (try_get_model_version_set _ _ st2 (Raise KeyError));
      cbn; rewrite ?Hv; [| done | done].
    cbn [str truthy]. unfold in_stages.
    rewrite Ht, bool_decide_eq_true_2 by done. done.
Qed.

End more.

(** *** The methods that hand over to the store's answer *)

Section delegating.

Context {Store : Type} `{!ZenStore Store} `{!UnicodeData}.
Variable client : Client.
Variable stages : list string.
Context {Artifact PipelineRun Updated : Type}.

Local Abbreviation Heap := (model_version.Heap Store).

Local Arguments _get_or_create_model : simpl never.
Local Arguments _get_or_create_model_version : simpl never.
Local Arguments isnumeric : simpl never.
Local Arguments lower : simpl never.
Local Arguments in_stages : simpl never.

Variable response_versions :
  ModelResponseModel -> M Heap (list ModelVersionResponseModel).
Variable response_get_model_artifact :
  ModelVersionResponseModel -> string -> option string -> option string ->
  option string -> M Heap (option Artifact).
Variable response_get_data_artifact :
  ModelVersionResponseModel -> string -> option string -> option string ->
  option string -> M Heap (option Artifact).
Variable response_get_endpoint_artifact :
  ModelVersionResponseModel -> string -> option string -> option string ->
  option string -> M Heap (option Artifact).
Variable response_get_pipeline_run :
  ModelVersionResponseModel -> string -> M Heap PipelineRun.
Variable response_set_stage :
  ModelVersionResponseModel -> string -> bool -> M Heap Updated.

(** X13. Where [id] and [number] return [None], the other public methods
    raise: with [version] a stage name or numeric string unknown to the
    store, the artifact getters, [get_pipeline_run], [set_stage] and
    [_validate_config_in_runtime] all end in [ReservedNameError], before
    the store's answer is asked anything.  [all_model_versions] does not
    depend on the version: it hands over to the model all the same. *)
Theorem other_methods_raise_reserved (h h1 : Heap) st2 m :
  let n := name (this h) in
  let v := version (this h) in
  truthy v = true ->
  in_stages stages (lower (str v)) = true \/ isnumeric (str v) = true ->
  _get_or_create_model client h = (h1, Ok m) ->
  get_model_version n v (zen_store h1) = (st2, Raise KeyError) ->
  let h2 := {| zen_store := st2;
               calls := calls h1 ++ [GetModelVersion n v];
               this := this h1 |} in
  exists why,
    let e := ReservedNameError why (str v) in
    (forall a av p s,
        get_model_artifact client stages response_get_model_artifact
          a av p s h = (h2, Raise e)) /\
    (forall a av p s,
        get_data_artifact client stages response_get_data_artifact
          a av p s h = (h2, Raise e)) /\
    (forall a av p s,
        get_endpoint_artifact client stages response_get_endpoint_artifact
          a av p s h = (h2, Raise e)) /\
    (forall run_name,
        get_pipeline_run client stages response_get_pipeline_run run_name h
        = (h2, Raise e)) /\
    (forall target force,
        set_stage client stages response_set_stage target force h
        = (h2, Raise e)) /\
    _validate_config_in_runtime client stages h = (h2, Raise e) /\
    all_model_versions client response_versions h = response_versions m h1.
Proof.
  cbn. intros Ht Hres E1 E2.
  pose proof (get_or_create_model_ok_this _ _ _ _ E1) as Hthis.
  assert (Ht1 : truthy (version (this h1)) = true) by by rewrite Hthis.
  assert (Hn : name (this h1) = name (this h)) by by rewrite Hthis.
  assert (Hv : version (this h1) = version (this h)) by by rewrite Hthis.
  rewrite <- Hn, <- Hv in E2.
  pose proof (try_get_model_version_set client h1 st2 (Raise KeyError)
                Ht1 E2) as Etry.
  destruct (get_or_create_model_version_reserved client stages _ _ _ _ E1 Etry)
    as [why Eres].
  { cbn. rewrite Hv.
    destruct Hres as [Hs | Hnum]; [left; by split | by right]. }
  cbn in Eres. rewrite Hn, Hv in Eres.
  exists why.
  unfold get_model_artifact, get_data_artifact, get_endpoint_artifact,
    get_pipeline_run, set_stage, _validate_config_in_runtime,
    all_model_versions, bind.
  rewrite Eres, E1. by repeat split.
Qed.

End delegating.


(** *** Merging configurations *)

Lemma or_else_idem a b : or_else (or_else a b) b = or_else a b.
Proof.
  destruct a as [s |]; cbn; [| by destruct b as [t |]; cbn;
                                 [destruct (String.eqb t "") |]].
  destruct (String.eqb s "") eqn:E; cbn; [| by rewrite E].
  destruct b as [t |]; cbn; [by destruct (String.eqb t "") | done].
Qed.

(** X14. [_merge] fills gaps and overwrites nothing: a text field of
    [self] that holds a non-empty string keeps it, one that is [None] or
    empty takes the value of the other configuration (also when that is
    [None]); name, version, flags and the resolved attributes are not
    touched. *)
Theorem merge_fills_gaps_only (self other : ModelVersion) :
  let merged := _merge self other in
  Forall (fun field =>
            (forall s, field self = Some s -> s <> "" ->
                       field merged = Some s) /\
            (field self = None \/ field self = Some "" ->
             field merged = field other))
         text_fields /\
  name merged = name self /\
  version merged = version self /\
  save_models_to_registry merged = save_models_to_registry self /\
  suppress_class_validation_warnings merged
    = suppress_class_validation_warnings self /\
  was_created_in_this_run merged = was_created_in_this_run self /\
  _model_id merged = _model_id self /\
  _id merged = _id self /\
  _number merged = _number self.
Proof.
  cbn. split; [| by repeat split].
  assert (K : forall a b s, a = Some s -> s <> "" -> or_else a b = Some s).
  { intros a b s -> Hne. cbn. by apply String.eqb_neq in Hne as ->. }
  assert (G : forall a b, a = None \/ a = Some "" -> or_else a b = b).
  { by intros a b [-> | ->]. }
  unfold text_fields. repeat constructor; cbn; eauto.
Qed.

(** X15. After [_merge] with a configuration that has tags, the tags of
    [self] are those of both, each once; with one that has none ([None]),
    they stay as they are. *)
Theorem merge_unites_tags (self other : ModelVersion) :
  (forall other_tags,
      tags other = Some other_tags ->
      exists merged_tags,
        tags (_merge self other) = Some merged_tags /\
        NoDup merged_tags /\
        forall t, t ∈ merged_tags <->
                  t ∈ default [] (tags self) \/ t ∈ other_tags) /\
  (tags other = None -> tags (_merge self other) = tags self).
Proof.
  split.
  - intros other_tags E. cbn. rewrite E. eexists. split; [done |].
    split; [apply NoDup_elements |].
    intros t. rewrite elem_of_elements, elem_of_union, !elem_of_list_to_set.
    done.
  - intros E. cbn. by rewrite E.
Qed.

(** X16. Merging the same configuration a second time changes nothing:
    every field is as after the first merge, the tags up to their
    order. *)
Theorem merge_is_idempotent (self other : ModelVersion) :
  let merged := _merge self other in
  let again := _merge merged other in
  Forall (fun field => field again = field merged) text_fields /\
  default [] (tags again) ≡ₚ default [] (tags merged) /\
  (tags again = None <-> tags merged = None) /\
  name again = name merged /\
  version again = version merged.
Proof.
  assert (E : _merge (_merge self other) other = _merge self other).
  { unfold _merge. cbn. rewrite !or_else_idem.
    destruct (tags other) as [other_tags |]; cbn; [| done].
    do 3 f_equal. rewrite list_to_set_elements_L.
    by rewrite <- (assoc_L (∪)), (idemp_L (∪)). }
  cbv zeta. rewrite E. split; [| done].
  unfold text_fields. by repeat constructor.
Qed.

(** *** The validator *)

(** X17. [_root_validator] changes nothing in [values] but
    [suppress_class_validation_warnings], which it sets; it logs at most
    its two notices, and none when the warnings were suppressed; and
    validating its own result again is silent and changes nothing. *)
Theorem validator_warns_once `{!UnicodeData}
    stage_values (values : gmap string Any) :
  let flag := "suppress_class_validation_warnings" in
  let log := fst (_root_validator stage_values values) in
  let values' := snd (_root_validator stage_values values) in
  values' !! flag = Some (ABool true) /\
  (forall key, key <> flag -> values' !! key = values !! key) /\
  length log <= 2 /\
  (forall x, values !! flag = Some x -> truthy_any x = true -> log = []) /\
  _root_validator stage_values values' = ([], values').
Proof.
  cbn. split; [by rewrite lookup_insert_eq |].
  split; [by intros key Hk; rewrite lookup_insert_ne |].
  split.
  { destruct (is_stage_value _ _ && _), (isnumeric _ && _); cbn; lia. }
  split.
  { intros x -> Hx. cbn. rewrite Hx. cbn. by rewrite !andb_false_r. }
  unfold _root_validator. rewrite lookup_insert_eq. cbn.
  rewrite !andb_false_r. cbn. by rewrite insert_insert_eq.
Qed.

(** *** Runs on the in-memory stores *)

Local Existing Instance ascii_only.

Lemma get_or_create_model_errors_witness :
  let at_ st := new_heap st (configured "churn" None) in
  snd (_get_or_create_model plain_client (at_ unreachable))
    = Raise (OtherError "ConnectionError") /\
  snd (_get_or_create_model plain_client (at_ read_only))
    = Raise KeyError /\
  snd (_get_or_create_model plain_client (at_ amnesiac)) = Raise KeyError.
Proof.
  intros at_. split; [| split].
  - destruct (get_or_create_model_errors plain_client (at_ unreachable))
      as (A & _).
    by rewrite (A unreachable (OtherError "ConnectionError") eq_refl).
  - destruct (get_or_create_model_errors plain_client (at_ read_only))
      as (_ & B & _).
    by rewrite (B read_only read_only read_only
                  (OtherError "IllegalOperationError") (Raise KeyError)
                  eq_refl eq_refl ltac:(done) eq_refl).
  - destruct (get_or_create_model_errors plain_client (at_ amnesiac))
      as (_ & _ & C).
    by rewrite (C amnesiac
                  {| behind := churn_store_without_versions;
                     failing := failing amnesiac |}
                  {| behind := churn_store_without_versions;
                     failing := failing amnesiac |}
                  (Ok churn) KeyError
                  eq_refl eq_refl (or_introl eq_refl) eq_refl).
Defined.

Lemma unset_version_adopts_version_of_this_run_witness :
  let h := fresh_heap churn_store (configured "churn" None) in
  (exists h',
      _get_or_create_model_version pipeline_client stage_names h
        = (h', Ok churn_v1) /\
      version (this h') = Some (VStr "baseline") /\
      was_created_in_this_run (this h') = false) /\
  (exists h',
      _get_or_create_model_version step_client stage_names h
        = (h', Ok churn_v1) /\
      version (this h') = Some (VStr "baseline") /\
      was_created_in_this_run (this h') = false).
Proof.
  intros h. split.
  - edestruct (unset_version_adopts_version_of_this_run
                 pipeline_client stage_names h)
      with (adopted := created_baseline) (st2 := churn_store) (m := churn)
           (mv := churn_v1)
      as (E & V & W);
      [reflexivity | reflexivity | left; by split | reflexivity
      | reflexivity | reflexivity |].
    eexists. split; [exact E |]. by split.
  - edestruct (unset_version_adopts_version_of_this_run
                 step_client stage_names h)
      with (adopted := created_baseline) (st2 := churn_store) (m := churn)
           (mv := churn_v1)
      as (E & V & W);
      [reflexivity | reflexivity
      | right; split; [reflexivity |];
        exists [("load", Some (configured "fraud" None))], "train",
          [("eval", Some (set_was_created_in_this_run true
                            (configured "churn" (Some (VInt 9)))))];
        by repeat split
      | reflexivity | reflexivity | reflexivity |].
    eexists. split; [exact E |]. by split.
Defined.

Lemma unknown_name_is_created_witness :
  let h := fresh_heap churn_store
             (configured "churn" (Some (VStr "candidate"))) in
  exists h' mv,
    _get_or_create_model_version plain_client stage_names h = (h', Ok mv) /\
    mvr_name mv = "candidate" /\
    calls h' =
      [GetModel "churn"; GetModelVersion "churn" (Some (VStr "candidate"));
       CreateModelVersion
         (model_version_request_of plain_client (this h) churn)] /\
    was_created_in_this_run (this h') = true.
Proof.
  intros h.
  edestruct (unknown_name_is_created plain_client stage_names h)
    with (st2 := churn_store) (m := churn)
         (mv := {| mvr_id := 1001%N; mvr_name := "candidate";
                   mvr_number := 2%Z; mvr_model := churn;
                   mvr_stage := None |})
    as (_ & E);
    [reflexivity | reflexivity | reflexivity | reflexivity | reflexivity
    | reflexivity |].
  eexists _, _. split; [exact E |]. by repeat split.
Defined.

Lemma resolution_errors_pass_through_witness :
  snd (_get_or_create_model_version plain_client stage_names
         (new_heap versions_down
            (configured "churn" (Some (VStr "baseline")))))
    = Raise (OtherError "ConnectionError") /\
  (let run := _get_or_create_model_version plain_client stage_names
                (new_heap churn_read_only (configured "churn" None)) in
   snd run = Raise (OtherError "IllegalOperationError") /\
   version (this (fst run)) = None /\
   was_created_in_this_run (this (fst run)) = false).
Proof.
  split.
  - edestruct (resolution_errors_pass_through plain_client stage_names
                 (new_heap versions_down
                    (configured "churn" (Some (VStr "baseline")))))
      as (A & _); [reflexivity |].
    erewrite (A (OtherError "ConnectionError")); [| reflexivity | done].
    reflexivity.
  - cbv zeta.
    edestruct (resolution_errors_pass_through plain_client stage_names
                 (new_heap churn_read_only (configured "churn" None)))
      as (_ & B); [reflexivity |].
    erewrite (B churn_read_only (OtherError "IllegalOperationError"));
      [| reflexivity ..].
    by repeat split.
Defined.

Lemma first_access_resolves_witness :
  let h := fresh_heap churn_store
             (configured "churn" (Some (VStr "baseline"))) in
  snd (id plain_client stage_names h) = Ok (Some 1000%N) /\
  snd (number plain_client stage_names h) = Ok (Some 1%Z) /\
  snd (model_id plain_client h) = Ok (Some 1%N).
Proof.
  intros h.
  destruct (first_access_resolves plain_client stage_names h) as [V M].
  assert (E : _get_or_create_model_version plain_client stage_names h =
              (fst (_get_or_create_model_version plain_client stage_names h),
               Ok churn_v1)) by (vm_compute; reflexivity).
  assert (E' : _get_or_create_model plain_client h =
               (fst (_get_or_create_model plain_client h), Ok churn))
    by (vm_compute; reflexivity).
  destruct (V _ _ E) as [I N].
  rewrite (I eq_refl), (N eq_refl), (M _ _ E' eq_refl).
  by repeat split.
Defined.

Lemma properties_raise_other_errors_witness :
  let h := new_heap unreachable (configured "churn" (Some (VInt 1))) in
  let down := OtherError "ConnectionError" in
  let h' := new_heap reserving (configured "churn" (Some (VInt 1))) in
  snd (id plain_client stage_names h) = Raise down /\
  snd (number plain_client stage_names h) = Raise down /\
  snd (stage plain_client stage_names h) = Raise down /\
  snd (model_id plain_client h) = Raise down /\
  snd (model_id plain_client h')
    = Raise (ReservedNameError NumericName "1").
Proof.
  intros h down h'.
  edestruct (properties_raise_other_errors plain_client stage_names h)
    with (e := OtherError "ConnectionError") as [V M].
  edestruct V as (I & N & S); [done | vm_compute; reflexivity |].
  edestruct (properties_raise_other_errors plain_client stage_names h')
    with (e := ReservedNameError NumericName "1") as [_ M'].
  rewrite (I eq_refl), (N eq_refl), S.
  rewrite M; [| vm_compute; reflexivity | reflexivity].
  rewrite M'; [| vm_compute; reflexivity | reflexivity].
  by repeat split.
Defined.

Lemma stage_of_resolved_version_witness :
  snd (stage plain_client stage_names
         (fresh_heap churn_store (configured "churn" (Some (VInt 1)))))
    = Ok (Some "staging") /\
  snd (stage plain_client ["production"]
         (fresh_heap churn_store (configured "churn" (Some (VInt 1)))))
    = Raise ValueError.
Proof.
  split.
  - edestruct (stage_of_resolved_version plain_client stage_names
                 (fresh_heap churn_store (configured "churn" (Some (VInt 1)))))
      with (mv := churn_v1) as (_ & S & _); [vm_compute; reflexivity |].
    rewrite (S "staging"); [done | done | done | compute_done].
  - edestruct (stage_of_resolved_version plain_client ["production"]
                 (fresh_heap churn_store (configured "churn" (Some (VInt 1)))))
      with (mv := churn_v1) as (_ & _ & S); [vm_compute; reflexivity |].
    rewrite (S "staging"); [done | done | done | compute_done].
Defined.

Lemma eq_by_resolved_id_witness :
  let staged := configured "churn" (Some (VStage "staging")) in
  let first := configured "churn" (Some (VInt 1)) in
  let archived := configured "churn" (Some (VStage "archived")) in
  snd (__eq__ plain_client stage_names (fresh_heap churn_store staged, first))
    = Ok true /\
  snd (__eq__ plain_client stage_names
         (fresh_heap churn_store archived, first))
    = Raise (ReservedNameError MatchesStage "archived").
Proof.
  intros staged first archived. split.
  - edestruct (eq_by_resolved_id plain_client stage_names
                 (fresh_heap churn_store staged) first) as [E _];
      [reflexivity | reflexivity |].
    erewrite E with (self_mv := churn_v1) (other_mv := churn_v1);
      [reflexivity | vm_compute; reflexivity | vm_compute; reflexivity].
  - edestruct (eq_by_resolved_id plain_client stage_names
                 (fresh_heap churn_store archived) first) as [_ R];
      [reflexivity | reflexivity |].
    erewrite R; [reflexivity | vm_compute; reflexivity].
Defined.

Lemma capitalised_stage_is_refused_unannounced_witness :
  let h := fresh_heap churn_store
             (configured "churn" (Some (VStr "Production"))) in
  fst (_root_validator stage_names {[ "version" := AStr "Production" ]})
    = [] /\
  snd (_get_or_create_model_version plain_client stage_names h)
    = Raise (ReservedNameError MatchesStage "Production").
Proof.
  intros h.
  edestruct (capitalised_stage_is_refused_unannounced plain_client
               stage_names h)
    with (st2 := churn_store) (m := churn) (s := "Production")
         (values := ({[ "version" := AStr "Production" ]} : gmap string Any))
    as [V R];
    [reflexivity | reflexivity | compute_done | compute_done
    | reflexivity | reflexivity | reflexivity |].
  split; [exact V | by rewrite R].
Defined.

Lemma other_methods_raise_reserved_witness :
  let h := fresh_heap churn_store (configured "churn" (Some (VStr "7"))) in
  let answer : ModelVersionResponseModel -> string -> bool ->
               M (Heap MemStore) unit := fun _ _ _ => ret tt in
  let versions : ModelResponseModel ->
                 M (Heap MemStore) (list ModelVersionResponseModel) :=
    fun _ => ret [churn_v1] in
  (exists why,
      snd (set_stage plain_client stage_names answer "production" true h)
      = Raise (ReservedNameError why "7")) /\
  snd (all_model_versions plain_client versions h) = Ok [churn_v1].
Proof.
  intros h answer versions.
  edestruct (other_methods_raise_reserved plain_client stage_names
               (Artifact:=unit) (PipelineRun:=unit)
               versions (fun _ _ _ _ _ => ret None)
               (fun _ _ _ _ _ => ret None) (fun _ _ _ _ _ => ret None)
               (fun _ _ => ret tt) answer h)
    with (st2 := churn_store) (m := churn)
    as (why & _ & _ & _ & _ & S & _ & A);
    [reflexivity | by right | reflexivity | reflexivity |].
  split.
  - exists why. by rewrite S.
  - by rewrite A.
Defined.

Lemma merge_fills_gaps_only_witness :
  let merged := _merge sketch card in
  license merged = Some "MIT" /\
  description merged = Some "Churn model" /\
  audience merged = Some "analysts" /\
  version merged = Some (VStr "baseline").
Proof.
  destruct (merge_fills_gaps_only sketch card) as (F & _ & V & _).
  apply Forall_cons in F as [[L _] F].
  apply Forall_cons in F as [[_ D] F].
  apply Forall_cons in F as [[_ A] _].
  cbv zeta. rewrite (L "MIT" eq_refl ltac:(done)).
  rewrite (D (or_intror eq_refl)), (A (or_introl eq_refl)), V.
  by repeat split.
Defined.

Lemma merge_unites_tags_witness :
  exists merged_tags,
    tags (_merge sketch card) = Some merged_tags /\
    NoDup merged_tags /\
    "draft" ∈ merged_tags /\ "prod" ∈ merged_tags.
Proof.
  destruct (merge_unites_tags sketch card) as [U _].
  destruct (U ["prod"; "tabular"] eq_refl) as (l & E & N & M).
  exists l. split; [exact E |]. split; [exact N |].
  split; apply M; [left | right]; compute_done.
Defined.

Lemma validator_warns_once_witness :
  let values : gmap string Any :=
    {[ "version" := AInt 3;
       "suppress_class_validation_warnings" := ABool true ]} in
  fst (_root_validator stage_names values) = [].
Proof.
  intros values.
  destruct (validator_warns_once stage_names values) as (_ & _ & _ & Q & _).
  apply (Q (ABool true)); [vm_compute; reflexivity | reflexivity].
Defined.


End ModelVersionMore.

(** * Further properties of the YAML and JSON helpers *)

Module YamlUtilsMore.
Import yaml_utils YamlUtilsSpec.

Lemma ends_with_iff suffix s :
  ends_with suffix s = true <-> exists stem, s = stem ++ suffix.
Proof.
  split.
  - induction s as [| c s IH]; cbn [ends_with].
    + rewrite orb_false_r. intros ->%String.eqb_eq. by exists "".
    + intros [->%String.eqb_eq | H]%orb_true_iff; [by exists "" |].
      destruct (IH H) as [stem ->]. by exists (String c stem).
  - intros [stem ->]. induction stem as [| c stem IH].
    + change ("" ++ suffix) with suffix.
      destruct suffix; cbn [ends_with]; by rewrite String.eqb_refl.
    + change (String c stem ++ suffix) with (String c (stem ++ suffix)).
      cbn [ends_with]. rewrite IH. apply orb_true_r.
Qed.

(** X18. [is_yaml] holds of the paths that end in [yaml] or [yml], as
    written: no dot is asked for, and capitals do not count. *)
Theorem is_yaml_iff_suffix file_path :
  is_yaml file_path = true <->
  exists stem, file_path = stem ++ "yaml" \/ file_path = stem ++ "yml".
Proof.
  unfold is_yaml. split.
  - destruct (ends_with "yaml" file_path) eqn:E1; cbn.
    + intros _. apply ends_with_iff in E1 as [stem ->]. eauto.
    + destruct (ends_with "yml" file_path) eqn:E2; [| done].
      intros _. apply ends_with_iff in E2 as [stem ->]. eauto.
  - intros [stem [-> | ->]].
    + by rewrite (proj2 (ends_with_iff "yaml" _)) by eauto.
    + rewrite (proj2 (ends_with_iff "yml" (stem ++ "yml"))) by eauto.
      by rewrite orb_true_r.
Qed.

Section more.

Context {FS : Type} `{!FileIO FS}.
Context {Key : Type} `{Countable Key} {Val Encoder : Type}.
Context `{!Serializers (Key:=Key) (Val:=Val) Encoder}.

Implicit Types (fs : FS) (contents : gmap Key Val).

Ltac run :=
  unfold bind, ret, raise, of_option, of_result, isdir, exists_,
    read_contents; cbn.

Lemma update_empty contents : update ∅ contents = contents.
Proof. rewrite update_union. apply (right_id_L ∅ (∪)). Qed.

Lemma write_yaml_once file_path contents sort_keys fs :
  (exists e, write_yaml file_path contents sort_keys fs = (fs, Raise e))
  \/ exists text,
       yaml_dump contents sort_keys = Ok text /\
       write_yaml file_path contents sort_keys fs =
         write_file_contents_as_string file_path text fs.
Proof.
  unfold write_yaml. run.
  destruct (is_remote file_path); cbn;
    [| destruct (fileio_isdir _ fs); cbn; [| eauto]];
    (destruct (yaml_dump contents sort_keys) as [text | e]; cbn;
     [right; eauto | left; eauto]).
Qed.

(** After the mapping is read, [append_yaml] goes on as [write_yaml]. *)
Lemma append_yaml_as_write file_path contents :
  append_yaml file_path contents =
    (loaded <- read_yaml file_path ;;
     file_contents <- or_empty_dict loaded ;;
     write_yaml file_path (update file_contents contents) true).
Proof. reflexivity. Qed.

Lemma read_yaml_keeps fs file_path :
  fst (read_yaml file_path fs) = fs.
Proof.
  unfold read_yaml. run. destruct (fileio_exists file_path fs); cbn; [| done].
  destruct (read_file_contents_as_string file_path fs); cbn; [| done].
  by destruct (yaml_safe_load _).
Qed.

Lemma or_empty_dict_keeps (loaded : PyObj Key Val) fs :
  fst (or_empty_dict loaded fs) = fs.
Proof.
  destruct loaded as [| d | v]; cbn; [done | |].
  - by destruct (decide (d = ∅)).
  - by destruct (bool_of v).
Qed.

(** X19. A writer touches the file system in one way only: by a single
    call of [write_file_contents_as_string] on the text it was to write.
    Whenever it does not get that far, it raises and the file system is as
    before.  For [append_yaml] the text is the dump of some mapping
    updated with [contents]. *)
Theorem writers_write_at_most_once file_path fs :
  (forall contents sort_keys,
      (exists e, write_yaml file_path contents sort_keys fs = (fs, Raise e))
      \/ exists text,
           yaml_dump contents sort_keys = Ok text /\
           write_yaml file_path contents sort_keys fs =
             write_file_contents_as_string file_path text fs) /\
  (forall contents encoder,
      (exists e, write_json file_path contents encoder fs = (fs, Raise e))
      \/ exists text,
           json_dumps contents encoder = Ok text /\
           write_json file_path contents encoder fs =
             write_file_contents_as_string file_path text fs) /\
  (forall text,
      (exists e, write_json_string file_path text fs = (fs, Raise e))
      \/ write_json_string file_path text fs =
           write_file_contents_as_string file_path text fs) /\
  (forall contents,
      (exists e, append_yaml file_path contents fs = (fs, Raise e))
      \/ exists old text,
           yaml_dump (contents ∪ old) true = Ok text /\
           append_yaml file_path contents fs =
             write_file_contents_as_string file_path text fs).
Proof.
  split; [| split; [| split]].
  - intros contents sort_keys. apply write_yaml_once.
  - intros contents encoder. unfold write_json. run.
    destruct (is_remote file_path); cbn;
      [| destruct (fileio_isdir _ fs); cbn; [| eauto]];
      (destruct (json_dumps contents encoder) as [text | e]; cbn;
       [right; eauto | left; eauto]).
  - intros text. unfold write_json_string. run.
    destruct (is_remote file_path); cbn;
      [| destruct (fileio_isdir _ fs); cbn; [| eauto]]; by right.
  - intros contents. rewrite append_yaml_as_write. unfold bind.
    pose proof (read_yaml_keeps fs file_path) as K1.
    destruct (read_yaml file_path fs) as [fs1 [loaded | e]];
      cbn in K1; subst fs1; [| eauto].
    pose proof (or_empty_dict_keeps loaded fs) as K2.
    destruct (or_empty_dict loaded fs) as [fs2 [old | e]];
      cbn in K2; subst fs2; [| eauto].
    rewrite update_union.
    destruct (write_yaml_once file_path (contents ∪ old) true fs)
      as [? | (text & ? & ?)]; [by left | right; by exists old, text].
Qed.

(** X20. A failed serialization writes nothing: once the directory check
    is passed, whatever exception [yaml.dump] raises on the contents is
    raised by [write_yaml], whatever exception [json.dumps] raises is
    raised by [write_json], and the file at [file_path], if any, is left
    as it was. *)
Theorem failed_serialization_writes_nothing file_path contents fs e :
  is_remote file_path = true \/
  fileio_isdir (Path_parent file_path) fs = true ->
  (forall sort_keys,
      yaml_dump contents sort_keys = Raise e ->
      write_yaml file_path contents sort_keys fs = (fs, Raise e)) /\
  (forall encoder,
      json_dumps contents encoder = Raise e ->
      write_json file_path contents encoder fs = (fs, Raise e)).
Proof.
  intros Hd. split.
  - intros sort_keys E. rewrite write_yaml_checked by done. run.
    by rewrite E.
  - intros encoder E. rewrite write_json_checked by done. run.
    by rewrite E.
Qed.

(** X21. What [write_json_string] wrote, [read_json_string] returns,
    character for character: no serializer stands between the string and
    the file. *)
Theorem json_string_round_trip `{!FileIOLaws FS} file_path text fs fs' :
  is_remote file_path = true \/
  fileio_isdir (Path_parent file_path) fs = true ->
  write_file_contents_as_string file_path text fs = (fs', Ok tt) ->
  (_ <- write_json_string file_path text ;; read_json_string file_path) fs
  = (fs', Ok text).
Proof.
  intros Hd W.
  assert (Ew : write_json_string file_path text fs = (fs', Ok tt))
    by by rewrite write_json_string_checked.
  rewrite (bind_ok _ _ _ _ _ Ew).
  rewrite read_json_string_existing by eauto using written_exists.
  by rewrite (written_read _ _ _ _ W).
Qed.


(** X23. A file that parses to a false scalar or sequence ([0], [False],
    an empty string or list) is taken for an empty mapping: [append_yaml]
    overwrites it with the dump of [contents] alone. *)
Theorem append_yaml_replaces_false_value file_path contents fs text v :
  fileio_exists file_path fs = true ->
  read_file_contents_as_string file_path fs = Ok text ->
  yaml_safe_load text = Some (PyOther v) ->
  bool_of v = false ->
  is_remote file_path = true \/
  fileio_isdir (Path_parent file_path) fs = true ->
  forall new_text,
    yaml_dump contents true = Ok new_text ->
    append_yaml file_path contents fs =
      write_file_contents_as_string file_path new_text fs.
Proof.
  intros E Hr Hl Hv Hd new_text Hdump.
  rewrite append_yaml_as_write. unfold bind.
  rewrite read_yaml_existing by done. rewrite Hr, Hl. cbn. rewrite Hv.
  cbn. rewrite update_empty, write_yaml_checked by done. run.
  by rewrite Hdump.
Qed.

(** X24. Writing a mapping, appending to it and reading the file gives
    the mapping updated with what was appended, when YAML represents both
    mappings and both writes return. *)
Theorem append_after_write_reads_union `{!FileIOLaws FS}
    file_path written appended sort_keys fs fs1 fs2 text1 text2 :
  is_remote file_path = true \/
  (fileio_isdir (Path_parent file_path) fs = true /\
   fileio_isdir (Path_parent file_path) fs1 = true) ->
  yaml_dump written sort_keys = Ok text1 ->
  yaml_safe_load text1 = Some (PyDict written) ->
  write_file_contents_as_string file_path text1 fs = (fs1, Ok tt) ->
  yaml_dump (appended ∪ written) true = Ok text2 ->
  yaml_safe_load text2 = Some (PyDict (appended ∪ written)) ->
  write_file_contents_as_string file_path text2 fs1 = (fs2, Ok tt) ->
  (_ <- write_yaml file_path written sort_keys ;;
   _ <- append_yaml file_path appended ;;
   read_yaml file_path) fs
  = (fs2, Ok (PyDict (appended ∪ written))).
Proof.
  intros Hd D1 L1 W1 D2 L2 W2.
  assert (Hd0 : is_remote file_path = true \/
                fileio_isdir (Path_parent file_path) fs = true)
    by (destruct Hd as [? | [? ?]]; auto).
  assert (Hd1 : is_remote file_path = true \/
                fileio_isdir (Path_parent file_path) fs1 = true)
    by (destruct Hd as [? | [? ?]]; auto).
  assert (Ew : write_yaml file_path written sort_keys fs = (fs1, Ok tt)).
  { rewrite write_yaml_checked by done. run. by rewrite D1. }
  rewrite (bind_ok _ _ _ _ _ Ew).
  assert (Ea : append_yaml file_path appended fs1 = (fs2, Ok tt)).
  { rewrite append_yaml_as_write. unfold bind.
    rewrite read_yaml_existing by eauto using written_exists.
    rewrite (written_read _ _ _ _ W1), L1. cbn.
    assert (Eo : (if decide (written = ∅) then ret ∅ else ret written) fs1
                 = (fs1, Ok written))
      by by destruct (decide (written = ∅)) as [-> |].
    rewrite Eo. rewrite update_union, write_yaml_checked by done. run.
    by rewrite D2. }
  rewrite (bind_ok _ _ _ _ _ Ea).
  rewrite read_yaml_existing by eauto using written_exists.
  by rewrite (written_read _ _ _ _ W2), L2.
Qed.

End more.

(** *** Runs on the in-memory file system *)

Lemma failed_serialization_writes_nothing_witness :
  write_yaml (Serializers0 := picky_serializers)
    "/tmp/run.yaml" two_lines true tmp_fs
    = (tmp_fs, Raise (OtherError "RepresenterError")) /\
  write_json (Serializers0 := picky_serializers)
    "/tmp/run.json" two_lines None tmp_fs = (tmp_fs, Raise ValueError).
Proof.
  split.
  - destruct (failed_serialization_writes_nothing (FS := MemFS)
                (Serializers0 := picky_serializers)
                "/tmp/run.yaml" two_lines tmp_fs
                (OtherError "RepresenterError")) as [Y _];
      [right; reflexivity |].
    apply Y. vm_compute. reflexivity.
  - destruct (failed_serialization_writes_nothing (FS := MemFS)
                (Serializers0 := picky_serializers)
                "/tmp/run.json" two_lines tmp_fs ValueError) as [_ J];
      [right; reflexivity |].
    apply J. vm_compute. reflexivity.
Defined.

Lemma json_string_round_trip_witness :
  (_ <- write_json_string "/tmp/run.json" "[1, 2]" ;;
   read_json_string "/tmp/run.json") tmp_fs
  = ({| files := <["/tmp/run.json" := "[1, 2]"]> (files tmp_fs);
        dirs := dirs tmp_fs |}, Ok "[1, 2]").
Proof.
  apply (json_string_round_trip (FS := MemFS));
    [right; reflexivity | reflexivity].
Defined.


Lemma append_yaml_replaces_false_value_witness :
  append_yaml (Serializers0 := scalar_serializers)
    "/tmp/conf.yaml" new_entries blank_fs
  = mem_write "/tmp/conf.yaml" (flat_dump new_entries) blank_fs.
Proof.
  change (mem_write "/tmp/conf.yaml" (flat_dump new_entries) blank_fs)
    with (write_file_contents_as_string
            "/tmp/conf.yaml" (flat_dump new_entries) blank_fs).
  apply (append_yaml_replaces_false_value (FS := MemFS)
           (Serializers0 := scalar_serializers)
           "/tmp/conf.yaml" new_entries blank_fs "" "");
    [reflexivity | reflexivity | reflexivity | reflexivity
    | right; reflexivity | reflexivity].
Defined.

Lemma append_after_write_reads_union_witness :
  let appended : gmap string string := {[ "seed" := "5" ]} in
  snd ((_ <- write_yaml "/tmp/run.yaml" new_entries true ;;
        _ <- append_yaml "/tmp/run.yaml" appended ;;
        read_yaml "/tmp/run.yaml") tmp_fs)
  = Ok (PyDict {[ "seed" := "5"; "epochs" := "10" ]}).
Proof.
  intros appended.
  erewrite (append_after_write_reads_union (FS := MemFS) (Encoder := unit)
              "/tmp/run.yaml" new_entries appended true
              tmp_fs tmp_fs_written
              {| files := <["/tmp/run.yaml" :=
                             flat_dump (appended ∪ new_entries)]>
                            (files tmp_fs_written);
                 dirs := dirs tmp_fs |});
    [| right; split; reflexivity | reflexivity | vm_compute; reflexivity
     | reflexivity | reflexivity | vm_compute; reflexivity | reflexivity].
  cbn [snd]. vm_compute. reflexivity.
Defined.

End YamlUtilsMore.
